(** * notifications-delivery: the queue processor and its SMS client

    A shallow embedding of
      - [notifications_delivery/clients/sms/twilio.py]      (module [Twilio])
      - [notifications_delivery/processor/sqs_processor.py] (module [SqsProcessor])
    Python values are modelled by [pyval], dictionaries by [gmap string _],
    exceptions by [exn] with the [isinstance] test of the [except] clauses,
    and the calls to the outside world (SES, the Twilio REST client, the
    notify API client, SQS) by a record of oracles whose answers may depend
    on everything that happened before.  Every such call is appended to an
    event log, so that statements such as "the reporter is called once" or
    "the message is not deleted" are statements about the log. *)

From Stdlib Require Import ZArith.
From stdpp Require Import gmap strings list pretty.

Open Scope string_scope.
Open Scope list_scope.

(** ** Python values *)

(** The values found in a decoded payload, in the message attributes and
    in the configuration: JSON scalars. *)

Inductive pyval :=
| PNone
| PBool (b : bool)
| PInt (z : Z)
| PStr (s : string).

#[global] Instance pyval_eq_dec : EqDecision pyval.
Proof. solve_decision. Defined.

(** Truth value of an object, as used by [if job_id:]. *)
Definition truthy (v : pyval) : bool :=
  match v with
  | PNone => false
  | PBool b => b
  | PInt z => negb (Z.eqb z 0)
  | PStr s => negb (String.eqb s "")
  end.

(** [d.get(k)]: the value, or [None] when the key is absent. *)
Definition dict_get (d : gmap string pyval) (k : string) : pyval :=
  match d !! k with Some v => v | None => PNone end.

(** [k in d] *)
Definition dict_in (k : string) (d : gmap string pyval) : bool :=
  match d !! k with Some _ => true | None => false end.

(** ** Exceptions *)

Inductive exn_class :=
| ProcessingError
| ExternalConnectionError
| HTTP503Error
| HTTPError
| InvalidResponse
| SmsClientException
| TwilioClientException
| TwilioRestException
| AwsSesClientException
| KeyError
| AttributeError
| BadSignature
| OtherError (name : string).

#[global] Instance exn_class_eq_dec : EqDecision exn_class.
Proof. solve_decision. Defined.

(** An exception object: its class and its argument, which is either a
    message or the exception it was built from, as in [ProcessingError(e)]. *)
Inductive exn :=
| Exn (cls : exn_class) (msg : string)
| ExnOf (cls : exn_class) (cause : exn).

Definition class_of (e : exn) : exn_class :=
  match e with Exn c _ => c | ExnOf c _ => c end.

(** The class hierarchy the [except] clauses rely on.
    [TwilioClientException] is declared an [SmsClientException] in
    twilio.py.  [HTTP503Error], [HTTPError] and [InvalidResponse] come from
    the notify client library: the clauses list them in this order, so
    [HTTP503Error] is an [HTTPError] and [InvalidResponse] is not one.
    The other classes are unrelated. *)
Definition subclass (c d : exn_class) : bool :=
  bool_decide (c = d)
  || match c, d with
     | HTTP503Error, HTTPError => true
     | TwilioClientException, SmsClientException => true
     | _, _ => false
     end.

Definition isinstance (e : exn) (c : exn_class) : bool := subclass (class_of e) c.

Inductive result (A : Type) :=
| Ok (a : A)
| Raise (e : exn).
Arguments Ok {A} a.
Arguments Raise {A} e.

(** ** The outside world *)

Record Message := {
  message_id : string;
  queue_url : string;
  body : string;
  message_attributes : gmap string (gmap string pyval)
}.

Inductive Call :=
| SesSendEmail (from_address to_address subject body : pyval)
| MessagesCreate (body to from_ : pyval)
| MessagesGet (sid : pyval)
| GetTemplate (service_id template_id : pyval)
| CreateNotification (service_id template_id job_id to status notification_id : pyval)
| ListQueues (prefix : pyval)
| ReceiveMessages (queue : string) (max_number visibility_timeout attribute_names : pyval)
| DeleteMessage (m : Message).

(** One entry of the log: the call, and the exception it raised if any. *)
Record Event := { ev_call : Call; ev_raised : option exn }.

Definition raised_of {A} (r : result A) : option exn :=
  match r with Ok _ => None | Raise e => Some e end.

(** The collaborators.  [loads] is [URLSafeSerializer(key).loads(s, salt)],
    a pure function; the others answer a call given the log so far. *)
Record World := {
  loads : pyval -> pyval -> string -> result (gmap string pyval);
  ses_send_email : list Event -> pyval -> pyval -> pyval -> pyval -> result pyval;
  messages_create : list Event -> pyval -> pyval -> pyval -> result pyval;
  messages_get : list Event -> pyval -> result pyval;
  api_get_template : list Event -> pyval -> pyval -> result (gmap string pyval);
  api_create_notification :
    list Event -> pyval -> pyval -> pyval -> pyval -> pyval -> pyval -> result unit;
  sqs_list_queues : list Event -> pyval -> result (option (list string));
  sqs_receive_messages : list Event -> string -> pyval -> pyval -> pyval -> result (list Message);
  sqs_delete : list Event -> Message -> result unit
}.

(** ** The state and error monad of the embedding *)

(** The store: the log of external calls, and the local variable [status]
    of [_process_message], which its [finally] block reads. *)
Record Store := { events : list Event; status_var : pyval }.

Definition M (A : Type) : Type := Store -> result A * Store.

Definition ret {A} (a : A) : M A := fun s => (Ok a, s).
Definition raise {A} (e : exn) : M A := fun s => (Raise e, s).
Definition bind {A B} (c : M A) (k : A -> M B) : M B :=
  fun s => match c s with
           | (Ok a, s') => k a s'
           | (Raise e, s') => (Raise e, s')
           end.

Notation "x <- c ;; k" := (bind c (fun x => k))
  (at level 20, c at level 99, k at level 200, only parsing).

(** [try: c except C1 as e: h1 e except C2 as e: h2 e ...]: the first
    clause whose class the exception is an instance of handles it. *)
Fixpoint find_handler {A} (hs : list (exn_class * (exn -> M A))) (e : exn)
  : option (exn -> M A) :=
  match hs with
  | [] => None
  | (c, h) :: hs' => if isinstance e c then Some h else find_handler hs' e
  end.

Definition try_except {A} (c : M A) (hs : list (exn_class * (exn -> M A))) : M A :=
  fun s => match c s with
           | (Ok a, s') => (Ok a, s')
           | (Raise e, s') =>
               match find_handler hs e with
               | Some h => h e s'
               | None => (Raise e, s')
               end
           end.

(** [try: c except Exception as e: h e] *)
Definition try_except_all {A} (c : M A) (h : exn -> M A) : M A :=
  fun s => match c s with
           | (Ok a, s') => (Ok a, s')
           | (Raise e, s') => h e s'
           end.

(** [try: c finally: f]: [f] runs on every exit of [c]; an exception
    raised by [f] replaces the outcome of [c]. *)
Definition try_finally {A} (c : M A) (f : M unit) : M A :=
  fun s => let body := c s in
           let final := f body.2 in
           match final.1 with
           | Ok _ => (body.1, final.2)
           | Raise e => (Raise e, final.2)
           end.

(** [for x in l: body x] *)
Fixpoint for_each {A} (l : list A) (body : A -> M unit) : M unit :=
  match l with
  | [] => ret tt
  | x :: l' => _ <- body x ;; for_each l' body
  end.

(** [d[k]] *)
Definition getitem {V} (d : gmap string V) (k : string) : M V :=
  match d !! k with
  | Some v => ret v
  | None => raise (Exn KeyError k)
  end.

Definition log_call (c : Call) (raised : option exn) (s : Store) : Store :=
  {| events := events s ++ [{| ev_call := c; ev_raised := raised |}];
     status_var := status_var s |}.

(** An external call: ask the oracle, log the call and its outcome. *)
Definition external {A} (c : Call) (answer : list Event -> result A) : M A :=
  fun s => let r := answer (events s) in (r, log_call c (raised_of r) s).

Definition set_status (v : pyval) : M unit :=
  fun s => (Ok tt, {| events := events s; status_var := v |}).

Definition get_status : M pyval := fun s => (Ok (status_var s), s).

(** ** clients/sms/twilio.py *)

Module Twilio.
Section Twilio.
Variable w : World.

(** [TwilioClient]: [self.client] is the REST client, reached through
    the oracles [messages_create] and [messages_get]. *)
Record TwilioClient := { from_number : pyval }.

Definition init (config : gmap string pyval) : TwilioClient :=
  {| from_number := dict_get config "TWILIO_NUMBER" |}.

Definition send_sms (self : TwilioClient) (notification : gmap string pyval)
    (content : pyval) : M pyval :=
  try_except
    (to <- getitem notification "to" ;;
     sid <- external (MessagesCreate content to (from_number self))
              (fun h => messages_create w h content to (from_number self)) ;;
     ret sid)
    [(TwilioRestException, fun e => raise (ExnOf TwilioClientException e))].

Definition status (self : TwilioClient) (message_id : pyval) : M pyval :=
  try_except
    (response_status <- external (MessagesGet message_id)
                          (fun h => messages_get w h message_id) ;;
     if bool_decide (response_status ∈ [PStr "delivered"; PStr "undelivered"; PStr "failed"])
     then ret response_status
     else ret PNone)
    [(TwilioRestException, fun e => raise (ExnOf TwilioClientException e))].
End Twilio.
End Twilio.

(** ** processor/sqs_processor.py *)

(** [str(v)], as used by [str.format]. *)
Definition pystr (v : pyval) : string :=
  match v with
  | PNone => "None"
  | PBool true => "True"
  | PBool false => "False"
  | PInt z => pretty z
  | PStr s => s
  end.

Module SqsProcessor.
Section SqsProcessor.
Variable w : World.

(** The arguments [aws_ses_client] and [notify_beta_client] of the source
    are the oracles of [w]; [twilio_client] is the client of [Twilio]. *)

Definition _set_up_logger (config : gmap string pyval) : M unit :=
  let turn_off :=
    match config !! "TURN_OFF_LOGGING" with Some v => v | None => PBool false end in
  if truthy turn_off then ret tt
  else
    _ <- getitem config "DELIVERY_LOG_LEVEL" ;;
    debug <- getitem config "DEBUG" ;;
    if truthy debug then ret tt
    else (_ <- getitem config "DELIVERY_LOG_PATH" ;; ret tt).

Definition _get_all_queues (config : gmap string pyval) (queue_name_prefix : pyval)
  : M (list string) :=
  _ <- getitem config "AWS_REGION" ;;
  _ <- getitem config "AWS_REGION" ;;
  response <- external (ListQueues queue_name_prefix)
                (fun h => sqs_list_queues w h queue_name_prefix) ;;
  match response with
  | Some urls => ret urls
  | None => raise (Exn KeyError "QueueUrls")
  end.

Definition _decrypt_message (config : gmap string pyval) (encrypted_content : string)
  : M (gmap string pyval) :=
  fun s => (loads w (dict_get config "SECRET_KEY") (dict_get config "DANGEROUS_SALT")
              encrypted_content, s).

(** [message.message_attributes.get(name).get('StringValue')] *)
Definition attribute (message : Message) (name : string) : M pyval :=
  match message_attributes message !! name with
  | Some a => ret (dict_get a "StringValue")
  | None => raise (Exn AttributeError "'NoneType' object has no attribute 'get'")
  end.

(** The three clauses that follow a call of the notify API client. *)
Definition api_handlers {A} : list (exn_class * (exn -> M A)) :=
  [(HTTP503Error, fun e => raise (ExnOf ExternalConnectionError e));
   (HTTPError, fun e => raise (ExnOf ProcessingError e));
   (InvalidResponse, fun e => raise (ExnOf InvalidResponse e))].

Definition twilio_handlers {A} : list (exn_class * (exn -> M A)) :=
  [(TwilioClientException, fun e => raise (ExnOf ProcessingError e))].

(** The body of the outer [try] of [_process_message]. *)
Definition dispatch (message : Message) (twilio_client : Twilio.TwilioClient)
    (content : gmap string pyval) (type_ service_id template_id : pyval) : M unit :=
  if bool_decide (type_ = PStr "email") then
    try_except
      (from_address <- getitem content "from_address" ;;
       to_address <- getitem content "to_address" ;;
       subject <- getitem content "subject" ;;
       body <- getitem content "body" ;;
       _ <- external (SesSendEmail from_address to_address subject body)
              (fun h => ses_send_email w h from_address to_address subject body) ;;
       set_status (PStr "sent"))
      [(AwsSesClientException, fun e => raise (ExnOf ProcessingError e))]
  else if bool_decide (type_ = PStr "sms") then
    if dict_in "content" content then
      try_except
        (text <- getitem content "content" ;;
         _ <- Twilio.send_sms w twilio_client content text ;;
         set_status (PStr "sent"))
        twilio_handlers
    else if dict_in "template" content then
      template_response <-
        try_except
          (external (GetTemplate service_id template_id)
             (fun h => api_get_template w h service_id template_id))
          api_handlers ;;
      try_except
        (text <- getitem template_response "content" ;;
         _ <- Twilio.send_sms w twilio_client content text ;;
         set_status (PStr "sent"))
        twilio_handlers
    else ret tt
  else
    notification_id <- attribute message "notification_id" ;;
    raise (Exn ProcessingError
             ("Invalid type " +:+ pystr type_ +:+ " for message id " +:+ pystr notification_id)).

(** The [finally] block of [_process_message]. *)
Definition finalize (service_id template_id job_id to notification_id : pyval) : M unit :=
  if truthy job_id then
    try_except
      (status <- get_status ;;
       external (CreateNotification service_id template_id job_id to status notification_id)
         (fun h => api_create_notification w h
                     service_id template_id job_id to status notification_id))
      api_handlers
  else ret tt.

Definition _process_message (config : gmap string pyval) (message : Message)
    (twilio_client : Twilio.TwilioClient) : M unit :=
  content <- _decrypt_message config (body message) ;;
  type_ <- attribute message "type" ;;
  service_id <- attribute message "service_id" ;;
  template_id <- attribute message "template_id" ;;
  notification_id <- attribute message "notification_id" ;;
  let job_id := if dict_in "job" content then dict_get content "job" else PNone in
  _ <- set_status (PStr "failed") ;;
  to <- (if dict_in "to" content then getitem content "to"
         else getitem content "to_address") ;;
  try_finally
    (dispatch message twilio_client content type_ service_id template_id)
    (finalize service_id template_id job_id to notification_id).

(** The body of [for message in messages]; the calls of the logger are
    left out. *)
Definition handle_message (config : gmap string pyval)
    (twilio_client : Twilio.TwilioClient) (message : Message) : M unit :=
  to_delete <-
    try_except
      (_ <- _process_message config message twilio_client ;; ret true)
      [(ProcessingError, fun _ => ret true);
       (ExternalConnectionError, fun _ => ret false)] ;;
  if to_delete : bool
  then external (DeleteMessage message) (fun h => sqs_delete w h message)
  else ret tt.

(** The body of the [try] inside [for queue in queues]. *)
Definition process_batch (config : gmap string pyval)
    (twilio_client : Twilio.TwilioClient) (queue : string) : M unit :=
  max_number <- getitem config "PROCESSOR_MAX_NUMBER_OF_MESSAGES" ;;
  visibility_timeout <- getitem config "PROCESSOR_VISIBILITY_TIMEOUT" ;;
  attribute_names <- getitem config "NOTIFICATION_ATTRIBUTES" ;;
  messages <- external (ReceiveMessages queue max_number visibility_timeout attribute_names)
                (fun h => sqs_receive_messages w h queue
                            max_number visibility_timeout attribute_names) ;;
  for_each messages (handle_message config twilio_client).

(** The body of [for queue in queues]. *)
Definition process_queue (config : gmap string pyval)
    (twilio_client : Twilio.TwilioClient) (queue : string) : M unit :=
  try_except_all (process_batch config twilio_client queue) (fun _ => ret tt).

Definition process_all_queues (config : gmap string pyval) (queue_name_prefix : pyval)
  : M unit :=
  _ <- _set_up_logger config ;;
  let twilio_client := Twilio.init config in
  _ <- getitem config "AWS_REGION" ;;
  _ <- getitem config "API_HOST_NAME" ;;
  _ <- getitem config "DELIVERY_CLIENT_USER_NAME" ;;
  _ <- getitem config "DELIVERY_CLIENT_SECRET" ;;
  queues <- _get_all_queues config queue_name_prefix ;;
  for_each queues (process_queue config twilio_client).

Definition process_notification_job (config : gmap string pyval) : M unit :=
  try_except_all
    (prefix <- getitem config "NOTIFICATION_QUEUE_PREFIX" ;;
     process_all_queues config prefix)
    (fun _ => ret tt).
End SqsProcessor.
End SqsProcessor.

(** ** Observations on the log *)

Definition is_reporter (ev : Event) : bool :=
  match ev_call ev with CreateNotification _ _ _ _ _ _ => true | _ => false end.

Definition is_resolver (ev : Event) : bool :=
  match ev_call ev with GetTemplate _ _ => true | _ => false end.

Definition is_delete (ev : Event) : bool :=
  match ev_call ev with DeleteMessage _ => true | _ => false end.

(** A send through a channel gateway: SES or the Twilio REST client. *)
Definition is_send (ev : Event) : bool :=
  match ev_call ev with
  | SesSendEmail _ _ _ _ | MessagesCreate _ _ _ => true
  | _ => false
  end.

Definition is_poll_of (queue : string) (ev : Event) : bool :=
  match ev_call ev with
  | ReceiveMessages q _ _ _ => bool_decide (q = queue)
  | _ => false
  end.

Fixpoint count (p : Event -> bool) (l : list Event) : nat :=
  match l with
  | [] => 0
  | ev :: l' => (if p ev then 1 else 0) + count p l'
  end.

(** The exception that leaves a call of the notify API client, after the
    three [except] clauses that follow it. *)
Definition api_error (e : exn) : exn :=
  if isinstance e HTTP503Error then ExnOf ExternalConnectionError e
  else if isinstance e HTTPError then ExnOf ProcessingError e
  else if isinstance e InvalidResponse then ExnOf InvalidResponse e
  else e.

(** What [process_all_queues] does with the outcome of [_process_message]:
    [Some true] delete, [Some false] keep, [None] the exception is handled
    by neither clause and leaves the loop over the batch. *)
Definition verdict (r : result unit) : option bool :=
  match r with
  | Ok _ => Some true
  | Raise e =>
      if isinstance e ProcessingError then Some true
      else if isinstance e ExternalConnectionError then Some false
      else None
  end.

(** The four attributes [_process_message] reads, all present. *)
Definition has_attributes (message : Message) : bool :=
  bool_decide (is_Some (message_attributes message !! "type"))
  && bool_decide (is_Some (message_attributes message !! "service_id"))
  && bool_decide (is_Some (message_attributes message !! "template_id"))
  && bool_decide (is_Some (message_attributes message !! "notification_id")).

(** [message.message_attributes.get(name).get('StringValue')] when the
    attribute is there. *)
Definition attribute_value (message : Message) (name : string) : pyval :=
  match message_attributes message !! name with
  | Some a => dict_get a "StringValue"
  | None => PNone
  end.

(** [content['to'] if 'to' in content else content['to_address']] *)
Definition recipient (content : gmap string pyval) : option pyval :=
  match content !! "to" with
  | Some v => Some v
  | None => content !! "to_address"
  end.

Definition job_of (content : gmap string pyval) : pyval :=
  if dict_in "job" content then dict_get content "job" else PNone.

(** ** What the statements below speak about *)

(** The store at the [try] of [_process_message]: [status] is ['failed']. *)
Definition failed_store (s : Store) : Store :=
  {| events := events s; status_var := PStr "failed" |}.

(** The log of [s'] continues the log of [s]. *)
Definition extends (s s' : Store) : Prop := ∃ new, events s' = events s ++ new.

(** The first field of an email payload that is missing, in the order in
    which the arguments of [send_email] are evaluated. *)
Definition missing_email_field (content : gmap string pyval) : option string :=
  if negb (dict_in "from_address" content) then Some "from_address"
  else if negb (dict_in "to_address" content) then Some "to_address"
  else if negb (dict_in "subject" content) then Some "subject"
  else if negb (dict_in "body" content) then Some "body"
  else None.

Section Statements.
Context (w : World) (config : gmap string pyval) (tc : Twilio.TwilioClient).

(** [process_all_queues] calls [message.delete()] once, right after
    [_process_message]. *)
Definition deletes (message : Message) (s : Store) : Prop :=
  ∃ ev, events (SqsProcessor.handle_message w config tc message s).2 =
        events (SqsProcessor._process_message w config message tc s).2 ++ [ev]
        ∧ ev_call ev = DeleteMessage message.

(** [process_all_queues] calls nothing after [_process_message]. *)
Definition retains (message : Message) (s : Store) : Prop :=
  events (SqsProcessor.handle_message w config tc message s).2 =
  events (SqsProcessor._process_message w config message tc s).2.

(** The [finally] block raises nothing: there is no job to report, or
    the reporter accepts the report made after the log [h]. *)
Definition finalizer_succeeds (message : Message) (content : gmap string pyval)
    (to status : pyval) (h : list Event) : Prop :=
  truthy (job_of content) = false
  ∨ api_create_notification w h (attribute_value message "service_id")
      (attribute_value message "template_id") (job_of content) to status
      (attribute_value message "notification_id") = Ok tt.

(** The ways an envelope fails to decode, with the exception that
    leaves [_process_message] in each: the serializer rejects the body
    with an exception of its own, an attribute is missing, the payload
    names no recipient, or an email payload lacks a field (and the
    [finally] block, run after the log [h], raises nothing). *)
Inductive decode_failure (message : Message) (h : list Event) : exn -> Prop :=
| undecryptable e :
    loads w (dict_get config "SECRET_KEY") (dict_get config "DANGEROUS_SALT") (body message)
    = Raise e ->
    isinstance e ProcessingError = false ->
    isinstance e ExternalConnectionError = false ->
    decode_failure message h e
| missing_attribute content :
    loads w (dict_get config "SECRET_KEY") (dict_get config "DANGEROUS_SALT") (body message)
    = Ok content ->
    has_attributes message = false ->
    decode_failure message h (Exn AttributeError "'NoneType' object has no attribute 'get'")
| missing_recipient content :
    loads w (dict_get config "SECRET_KEY") (dict_get config "DANGEROUS_SALT") (body message)
    = Ok content ->
    has_attributes message = true ->
    recipient content = None ->
    decode_failure message h (Exn KeyError "to_address")
| missing_field content to k :
    loads w (dict_get config "SECRET_KEY") (dict_get config "DANGEROUS_SALT") (body message)
    = Ok content ->
    has_attributes message = true ->
    recipient content = Some to ->
    attribute_value message "type" = PStr "email" ->
    missing_email_field content = Some k ->
    finalizer_succeeds message content to (PStr "failed") h ->
    decode_failure message h (Exn KeyError k).
End Statements.

(** ** Further observations on the log *)

(** The call returned normally. *)
Definition succeeded (ev : Event) : bool :=
  match ev_raised ev with None => true | Some _ => false end.

(** A poll of some queue. *)
Definition is_poll (ev : Event) : bool :=
  match ev_call ev with ReceiveMessages _ _ _ _ => true | _ => false end.

(** The calls one message can cause: a send, the resolver, the reporter. *)
Definition is_message_call (ev : Event) : bool :=
  is_send ev || is_resolver ev || is_reporter ev.

(** A gateway send that succeeded. *)
Definition sent_ok (ev : Event) : bool := is_send ev && succeeded ev.

(** The queues polled and the messages deleted, in the order of the log. *)
Definition polled_queue (ev : Event) : option string :=
  match ev_call ev with ReceiveMessages q _ _ _ => Some q | _ => None end.

Definition deleted_message (ev : Event) : option Message :=
  match ev_call ev with DeleteMessage m => Some m | _ => None end.

Definition polled (l : list Event) : list string := omap polled_queue l.
Definition deleted (l : list Event) : list Message := omap deleted_message l.

(** ** Concrete messages and worlds *)

Module Examples.
Definition attr (v : string) : gmap string pyval := {[ "StringValue" := PStr v ]}.

Definition envelope (id type_ body : string) : Message :=
  {| message_id := id;
     queue_url := "https://sqs/A";
     body := body;
     message_attributes :=
       {[ "type" := attr type_; "service_id" := attr "S1";
          "template_id" := attr "T1"; "notification_id" := attr "N1" ]} |}.

Definition config : gmap string pyval :=
  {[ "SECRET_KEY" := PStr "secret"; "DANGEROUS_SALT" := PStr "salt";
     "TWILIO_NUMBER" := PStr "+440000";
     "PROCESSOR_MAX_NUMBER_OF_MESSAGES" := PInt 10;
     "PROCESSOR_VISIBILITY_TIMEOUT" := PInt 60;
     "NOTIFICATION_ATTRIBUTES" := PStr "All";
   "TURN_OFF_LOGGING" := PBool true; "AWS_REGION" := PStr "eu-west-1";
   "API_HOST_NAME" := PStr "http://localhost:6011";
   "DELIVERY_CLIENT_USER_NAME" := PStr "delivery";
   "DELIVERY_CLIENT_SECRET" := PStr "delivery-secret";
   "NOTIFICATION_QUEUE_PREFIX" := PStr "notify" ]}.

Definition twilio_client : Twilio.TwilioClient := Twilio.init config.

Definition start : Store := {| events := []; status_var := PNone |}.

(** A world in which the body [b] decrypts to [decrypt b], the resolver
    answers [resolve], the reporter [report], queue [q] holds
    [receive q], and everything else succeeds. *)
Definition world (decrypt : string -> result (gmap string pyval))
    (resolve : result (gmap string pyval)) (report : result unit)
    (receive : string -> list Message) : World :=
  {| loads := fun _ _ b => decrypt b;
     ses_send_email := fun _ _ _ _ _ => Ok (PStr "E1");
     messages_create := fun _ _ _ _ => Ok (PStr "SM1");
     messages_get := fun _ _ => Ok (PStr "delivered");
     api_get_template := fun _ _ _ => resolve;
     api_create_notification := fun _ _ _ _ _ _ _ => report;
     sqs_list_queues := fun _ _ => Ok (Some ["A"; "B"]);
     sqs_receive_messages := fun _ q _ _ _ => Ok (receive q);
     sqs_delete := fun _ _ => Ok tt |}.

Definition template : gmap string pyval := {[ "content" := PStr "Hello" ]}.
Definition nothing (q : string) : list Message := [].

Definition unavailable : exn := Exn HTTP503Error "503".
Definition malformed : exn := Exn InvalidResponse "no json".
Definition bad_signature : exn := Exn BadSignature "Signature does not match".

Definition sms_inline : gmap string pyval :=
  {[ "to" := PStr "+447700900001"; "content" := PStr "Hi" ]}.
Definition sms_inline_job : gmap string pyval := <["job" := PStr "J1"]> sms_inline.
Definition sms_inline_empty_job : gmap string pyval := <["job" := PStr ""]> sms_inline.
Definition sms_template : gmap string pyval :=
  {[ "to" := PStr "+447700900001"; "template" := PStr "T1" ]}.
Definition sms_bare : gmap string pyval := {[ "to" := PStr "+447700900001" ]}.
Definition sms_bare_job : gmap string pyval := <["job" := PStr "J1"]> sms_bare.
Definition email : gmap string pyval :=
  {[ "to_address" := PStr "a@example.org"; "from_address" := PStr "b@example.org";
     "subject" := PStr "Subject"; "body" := PStr "Body" ]}.
Definition email_job : gmap string pyval := <["job" := PStr "J1"]> email.
Definition email_no_subject : gmap string pyval :=
  {[ "to_address" := PStr "a@example.org"; "from_address" := PStr "b@example.org";
     "body" := PStr "Body" ]}.

Definition always {A} (r : result A) (b : string) : result A := r.

(** The body ["garbled"] fails the signature check, any other body is
    an inline SMS. *)
Definition garbled_or_inline (b : string) : result (gmap string pyval) :=
  if bool_decide (b = "garbled") then Raise bad_signature else Ok sms_inline.

(** Queue A holds three messages, the second one garbled; queue B one. *)
Definition two_queues (q : string) : list Message :=
  if bool_decide (q = "A")
  then [envelope "m1" "sms" "fine"; envelope "m2" "sms" "garbled";
        envelope "m3" "sms" "fine"]
  else [envelope "m4" "sms" "fine"].

Definition sms_message : Message := envelope "m1" "sms" "fine".
Definition email_message : Message := envelope "m1" "email" "fine".
Definition garbled_message : Message := envelope "m2" "sms" "garbled".
Definition recipient_number : pyval := PStr "+447700900001".

Definition w_inline_job : World :=
  world (always (Ok sms_inline_job)) (Ok template) (Ok tt) nothing.
Definition w_inline_empty_job : World :=
  world (always (Ok sms_inline_empty_job)) (Ok template) (Ok tt) nothing.
Definition w_garbled : World :=
  world garbled_or_inline (Ok template) (Ok tt) two_queues.
Definition w_template : World :=
  world (always (Ok sms_template)) (Ok template) (Ok tt) nothing.
Definition w_malformed_template : World :=
  world (always (Ok sms_template)) (Raise malformed) (Ok tt) nothing.
Definition w_bare : World :=
  world (always (Ok sms_bare)) (Ok template) (Ok tt) nothing.
Definition w_bare_job : World :=
  world (always (Ok sms_bare_job)) (Ok template) (Ok tt) nothing.
Definition w_bare_job_down : World :=
  world (always (Ok sms_bare_job)) (Ok template) (Raise unavailable) nothing.
Definition w_email : World :=
  world (always (Ok email)) (Ok template) (Ok tt) nothing.
Definition w_email_job_down : World :=
  world (always (Ok email_job)) (Ok template) (Raise unavailable) nothing.

(** The report that [_process_message] makes for the job ["J1"]. *)
Definition report (to status : pyval) (raised : option exn) : Event :=
  {| ev_call := CreateNotification (PStr "S1") (PStr "T1") (PStr "J1") to status (PStr "N1");
     ev_raised := raised |}.

Definition email_sent : Event :=
  {| ev_call := SesSendEmail (PStr "b@example.org") (PStr "a@example.org")
                  (PStr "Subject") (PStr "Body");
     ev_raised := None |}.

Definition poll (queue : string) : Event :=
  {| ev_call := ReceiveMessages queue (PInt 10) (PInt 60) (PStr "All"); ev_raised := None |}.
(** As [world], with the answers of the SMS provider, of [receive_messages],
    of [delete] and of [list_queues] chosen as well. *)
Definition world_with (decrypt : string -> result (gmap string pyval))
    (resolve : result (gmap string pyval)) (report : result unit)
    (create : result pyval) (receive : string -> result (list Message))
    (delete : result unit) (queues : result (option (list string))) : World :=
  {| loads := fun _ _ b => decrypt b;
     ses_send_email := fun _ _ _ _ _ => Ok (PStr "E1");
     messages_create := fun _ _ _ _ => create;
     messages_get := fun _ _ => Ok (PStr "delivered");
     api_get_template := fun _ _ _ => resolve;
     api_create_notification := fun _ _ _ _ _ _ _ => report;
     sqs_list_queues := fun _ _ => queues;
     sqs_receive_messages := fun _ q _ _ _ => receive q;
     sqs_delete := fun _ _ => delete |}.

Definition rejected : exn := Exn TwilioRestException "21211".
Definition throttled : exn := Exn (OtherError "ClientError") "Throttling".
Definition received (q : string) : result (list Message) := Ok [].

Definition sms_to_address : gmap string pyval :=
  {[ "to_address" := PStr "+447700900001"; "content" := PStr "Hi" ]}.

Definition sms_inline_and_template : gmap string pyval :=
  <["template" := PStr "T1"]> sms_inline.
Definition w_inline_and_template : World :=
  world (always (Ok sms_inline_and_template)) (Ok template) (Ok tt) nothing.
Definition w_inline_rejected : World :=
  world_with (always (Ok sms_inline)) (Ok template) (Ok tt) (Raise rejected) received (Ok tt)
    (Ok (Some ["A"])).
Definition w_to_address : World :=
  world (always (Ok sms_to_address)) (Ok template) (Ok tt) nothing.
Definition w_template_down : World :=
  world (always (Ok sms_template)) (Raise unavailable) (Ok tt) nothing.
Definition w_template_empty : World :=
  world (always (Ok sms_template)) (Ok ∅) (Ok tt) nothing.
Definition w_delete_fails : World :=
  world_with (always (Ok sms_inline)) (Ok template) (Ok tt) (Ok (PStr "SM1")) received
    (Raise throttled) (Ok (Some ["A"])).
Definition w_receive_fails : World :=
  world_with (always (Ok sms_inline)) (Ok template) (Ok tt) (Ok (PStr "SM1"))
    (fun _ => Raise throttled) (Ok tt) (Ok (Some ["A"])).
Definition w_no_queues : World :=
  world_with (always (Ok sms_inline)) (Ok template) (Ok tt) (Ok (PStr "SM1")) received (Ok tt)
    (Ok None).


Definition sms_template_to_address : gmap string pyval :=
  {[ "to_address" := PStr "+447700900001"; "template" := PStr "T1" ]}.
Definition w_template_to_address : World :=
  world (always (Ok sms_template_to_address)) (Ok template) (Ok tt) nothing.
End Examples.

(** * Properties *)

Import SqsProcessor.

Lemma count_app p l1 l2 : count p (l1 ++ l2) = count p l1 + count p l2.
Proof. induction l1 as [|ev l1 IH]; simpl; [done|]. rewrite IH. lia. Qed.

Lemma count_zero_elem p l ev : count p l = 0 -> ev ∈ l -> p ev = false.
Proof.
  induction l as [|x l IH]; simpl; intros Hc Hin.
  - by apply elem_of_nil in Hin.
  - apply elem_of_cons in Hin as [->|Hin].
    + destruct (p x); [lia | done].
    + apply IH; [|done]. destruct (p x); lia.
Qed.

Lemma extends_refl s : extends s s.
Proof. exists []. by rewrite app_nil_r. Qed.

Lemma extends_trans s1 s2 s3 : extends s1 s2 -> extends s2 s3 -> extends s1 s3.
Proof. intros [n1 H1] [n2 H2]. exists (n1 ++ n2). by rewrite H2, H1, app_assoc. Qed.

Lemma for_each_extends {A} (body : A -> M unit) l :
  (∀ x s, extends s (body x s).2) -> ∀ s, extends s (for_each l body s).2.
Proof.
  intros Hb. induction l as [|x l IH]; intros s; simpl.
  - apply extends_refl.
  - unfold bind. pose proof (Hb x s) as Hx.
    destruct (body x s) as [[[]|e] s1]; simpl in *; [|done].
    eapply extends_trans; [done|apply IH].
Qed.

Lemma for_each_raises {A} (body : A -> M unit) x rest s e :
  (body x s).1 = Raise e ->
  for_each (x :: rest) body s = (Raise e, (body x s).2).
Proof. simpl. unfold bind. destruct (body x s) as [[]]; simpl; intros; simplify_eq; done. Qed.

(** Symbolic execution: unfold the monad, then split on every answer of
    the world and every lookup. *)
Ltac run :=
  unfold dispatch, finalize, Twilio.send_sms, Twilio.status, try_except, try_finally, bind,
    external, getitem, set_status, get_status, attribute, log_call, api_handlers,
    twilio_handlers, dict_in in *;
  simpl in *;
  unfold raise, ret in *; simpl in *.

Ltac cases := repeat (case_match; simplify_eq/=).

Ltac present_attributes H :=
  unfold has_attributes in H;
  repeat (apply andb_prop in H as [H ?]);
  repeat match goal with
         | Hb : bool_decide _ = true |- _ => apply bool_decide_eq_true in Hb as [? ?]
         end.

Section Processor.
Context (w : World) (config : gmap string pyval) (tc : Twilio.TwilioClient).

(** ** One message *)

(** A decoded message reaches the [try] with [status = 'failed']. *)
Lemma process_message_decoded message content to s :
  loads w (dict_get config "SECRET_KEY") (dict_get config "DANGEROUS_SALT") (body message)
  = Ok content ->
  has_attributes message = true ->
  recipient content = Some to ->
  _process_message w config message tc s =
  try_finally
    (dispatch w message tc content (attribute_value message "type")
       (attribute_value message "service_id") (attribute_value message "template_id"))
    (finalize w (attribute_value message "service_id") (attribute_value message "template_id")
       (job_of content) to (attribute_value message "notification_id"))
    (failed_store s).
Proof.
  intros Hl Ha Hr. present_attributes Ha.
  unfold _process_message, _decrypt_message, attribute, attribute_value, bind, job_of,
    set_status, ret.
  rewrite Hl.
  repeat match goal with H : _ !! _ = Some _ |- _ => rewrite H end.
  unfold recipient, dict_in, getitem in *.
  destruct (content !! "to") eqn:Hto; simplify_eq/=; [done|].
  unfold ret. rewrite Hr. done.
Qed.

(** Before the [try] nothing is called: a message that is not decoded
    leaves the log as it was. *)
Lemma process_message_undecoded message s :
  (∃ content to,
      loads w (dict_get config "SECRET_KEY") (dict_get config "DANGEROUS_SALT") (body message)
      = Ok content
      ∧ has_attributes message = true ∧ recipient content = Some to)
  ∨ (∃ e, (_process_message w config message tc s).1 = Raise e
          ∧ events (_process_message w config message tc s).2 = events s).
Proof.
  destruct (loads w (dict_get config "SECRET_KEY") (dict_get config "DANGEROUS_SALT")
              (body message)) as [content|e] eqn:Hl.
  2:{ right. exists e. unfold _process_message, _decrypt_message, bind. rewrite Hl. done. }
  destruct (has_attributes message) eqn:Ha.
  2:{ right. unfold _process_message, _decrypt_message, bind, attribute, has_attributes in *.
      rewrite Hl. unfold ret, raise.
      cases; eauto;
      repeat match goal with H : _ !! _ = Some _ |- _ =>
        rewrite H in Ha; rewrite (bool_decide_eq_true_2 (is_Some (Some _))) in Ha by eauto end;
      done. }
  destruct (recipient content) as [to|] eqn:Hr.
  { left. eauto. }
  right. present_attributes Ha.
  unfold _process_message, _decrypt_message, attribute, bind, set_status, ret.
  rewrite Hl.
  repeat match goal with H : _ !! _ = Some _ |- _ => rewrite H end.
  unfold recipient, dict_in, getitem, raise in *.
  destruct (content !! "to") eqn:Hto; simplify_eq/=.
  rewrite Hr. eauto.
Qed.

(** The two [except] clauses of [process_all_queues], as a verdict. *)
Lemma handle_message_verdict message s :
  handle_message w config tc message s =
  match verdict (_process_message w config message tc s).1 with
  | Some true =>
      external (DeleteMessage message) (fun h => sqs_delete w h message)
        (_process_message w config message tc s).2
  | Some false => (Ok tt, (_process_message w config message tc s).2)
  | None => ((_process_message w config message tc s).1,
             (_process_message w config message tc s).2)
  end.
Proof.
  unfold handle_message, try_except, bind, verdict.
  destruct (_process_message w config message tc s) as [[[]|e] s1]; simpl; [done|].
  destruct (isinstance e ProcessingError); [done|].
  destruct (isinstance e ExternalConnectionError); done.
Qed.

(** The dispatch calls neither the reporter nor [delete], and leaves
    [status = 'sent'] only after a send that succeeded. *)
Lemma dispatch_spec message content type_ sid tid s :
  status_var s = PStr "failed" ->
  ∃ new, events (dispatch w message tc content type_ sid tid s).2 = events s ++ new
    ∧ count is_reporter new = 0 ∧ count is_delete new = 0
    ∧ (status_var (dispatch w message tc content type_ sid tid s).2 = PStr "sent"
       ∨ status_var (dispatch w message tc content type_ sid tid s).2 = PStr "failed"
         ∧ ∀ ev, ev ∈ new -> is_send ev = true -> ev_raised ev ≠ None).
Proof.
  intros Hs. run.
  cases; rewrite <- ?app_assoc; simpl;
    try (exists []; rewrite app_nil_r; repeat split; eauto; right; split; [done|];
         intros ? ?%elem_of_nil; done);
    eexists; (split; [reflexivity|]); repeat split; eauto;
    right; (split; [done|]); intros ev Hin;
    repeat (apply elem_of_cons in Hin as [->|Hin]; [simpl; try done|]);
    try (by apply elem_of_nil in Hin); intros; done.
Qed.

(** The [finally] block: one call of the reporter when the job is
    truthy, none otherwise. *)
Lemma finalize_spec sid tid job to nid s :
  finalize w sid tid job to nid s =
  if truthy job then
    (match api_create_notification w (events s) sid tid job to (status_var s) nid with
     | Ok _ => Ok tt
     | Raise e => Raise (api_error e)
     end,
     log_call (CreateNotification sid tid job to (status_var s) nid)
       (raised_of (api_create_notification w (events s) sid tid job to (status_var s) nid)) s)
  else (Ok tt, s).
Proof.
  run. unfold api_error. cases; try done.
  match goal with u : unit |- _ => by destruct u end.
Qed.

(** The outcome of a decoded message: that of the dispatch, unless the
    reporter is called and fails. *)
Lemma process_message_outcome message s content to :
  loads w (dict_get config "SECRET_KEY") (dict_get config "DANGEROUS_SALT") (body message)
  = Ok content ->
  has_attributes message = true ->
  recipient content = Some to ->
  let d := dispatch w message tc content (attribute_value message "type")
             (attribute_value message "service_id") (attribute_value message "template_id")
             (failed_store s) in
  let report := CreateNotification (attribute_value message "service_id")
                  (attribute_value message "template_id") (job_of content) to (status_var d.2)
                  (attribute_value message "notification_id") in
  let answer := api_create_notification w (events d.2) (attribute_value message "service_id")
                  (attribute_value message "template_id") (job_of content) to (status_var d.2)
                  (attribute_value message "notification_id") in
  _process_message w config message tc s =
  if truthy (job_of content) then
    (match answer with Ok _ => d.1 | Raise e => Raise (api_error e) end,
     log_call report (raised_of answer) d.2)
  else d.
Proof.
  intros Hl Ha Hr. simpl. rewrite (process_message_decoded _ _ _ _ Hl Ha Hr).
  unfold try_finally. simpl. rewrite finalize_spec.
  destruct (dispatch _ _ _ _ _ _ _ _) as [rd sd]. simpl.
  destruct (truthy _); [|done]. destruct (api_create_notification _ _ _ _ _ _ _ _); done.
Qed.

(** [_process_message] never deletes. *)
Lemma process_message_log message s :
  ∃ new, events (_process_message w config message tc s).2 = events s ++ new
         ∧ count is_delete new = 0.
Proof.
  destruct (process_message_undecoded message s) as [(content & to & Hl & Ha & Hr)|(e & _ & He)].
  2:{ exists []. by rewrite app_nil_r. }
  rewrite (process_message_outcome _ _ _ _ Hl Ha Hr).
  destruct (dispatch_spec message content (attribute_value message "type")
              (attribute_value message "service_id") (attribute_value message "template_id")
              (failed_store s) eq_refl) as (new & Hnew & _ & Hdel & _).
  destruct (truthy _); simpl.
  - eexists. rewrite Hnew, <- app_assoc. split; [reflexivity|].
    rewrite count_app, Hdel. done.
  - by exists new.
Qed.

(** What one call leaves in the log: nothing, or the events of the
    dispatch followed by those of the [finally] block. *)
Lemma process_message_run message s new :
  events (_process_message w config message tc s).2 = events s ++ new ->
  new = []
  ∨ ∃ content to sd rd newd,
      dispatch w message tc content (attribute_value message "type")
        (attribute_value message "service_id") (attribute_value message "template_id")
        (failed_store s) = (rd, sd)
      ∧ events sd = events s ++ newd
      ∧ count is_reporter newd = 0
      ∧ (status_var sd = PStr "sent"
         ∨ status_var sd = PStr "failed"
           ∧ ∀ ev, ev ∈ newd -> is_send ev = true -> ev_raised ev ≠ None)
      ∧ _process_message w config message tc s =
        try_finally (fun _ => (rd, sd))
          (finalize w (attribute_value message "service_id")
             (attribute_value message "template_id") (job_of content) to
             (attribute_value message "notification_id")) s.
Proof.
  intros Hnew.
  destruct (process_message_undecoded message s) as [(content & to & Hl & Ha & Hr)|(e & _ & He)].
  2:{ left. rewrite He in Hnew. rewrite <- (app_nil_r (events s)) in Hnew at 1.
      by apply app_inv_head in Hnew. }
  right. exists content, to.
  destruct (dispatch_spec message content (attribute_value message "type")
              (attribute_value message "service_id") (attribute_value message "template_id")
              (failed_store s) eq_refl) as (newd & Hd & Hrep & _ & Hst).
  destruct (dispatch _ _ _ _ _ _ _ _) as [rd sd] eqn:Hdis. simpl in *.
  exists sd, rd, newd. repeat split; try done.
  rewrite (process_message_decoded _ _ _ _ Hl Ha Hr). unfold try_finally. by rewrite Hdis.
Qed.

(** A failed call of the reporter is the last event of the call, made
    with the status the dispatch left, and decides the outcome. *)
Lemma reporter_failure message s new rep e0 :
  events (_process_message w config message tc s).2 = events s ++ new ->
  rep ∈ new -> is_reporter rep = true -> ev_raised rep = Some e0 ->
  (_process_message w config message tc s).1 = Raise (api_error e0)
  ∧ ∃ sid tid job to status nid newd,
      ev_call rep = CreateNotification sid tid job to status nid
      ∧ new = newd ++ [rep]
      ∧ (status = PStr "sent"
         ∨ ∀ ev, ev ∈ newd -> is_send ev = true -> ev_raised ev ≠ None).
Proof.
  intros Hnew Hin Hrep Hraised.
  destruct (process_message_run message s new Hnew)
    as [->|(content & to & sd & rd & newd & Hdis & Hd & Hnorep & Hst & Hpm)].
  { by apply elem_of_nil in Hin. }
  rewrite Hpm in Hnew |- *. unfold try_finally in *. rewrite finalize_spec in *.
  destruct (truthy (job_of content)).
  2:{ simpl in Hnew. rewrite Hd in Hnew. apply app_inv_head in Hnew as <-.
      rewrite (count_zero_elem _ _ _ Hnorep Hin) in Hrep. done. }
  destruct (api_create_notification _ _ _ _ _ _ _ _) as [[]|e] eqn:Hans;
    simpl in Hnew; rewrite Hd, <- app_assoc in Hnew; apply app_inv_head in Hnew as <-;
    apply elem_of_app in Hin as [Hin|Hin];
    try (rewrite (count_zero_elem _ _ _ Hnorep Hin) in Hrep; done);
    apply list_elem_of_singleton in Hin as ->; simpl in Hraised; simplify_eq.
  split; [done|]. simpl.
  eexists _, _, _, _, _, _, newd. split; [reflexivity|]. split; [done|].
  destruct Hst as [->|[_ Hnone]]; auto.
Qed.

Lemma ok_deletes message s :
  verdict (_process_message w config message tc s).1 = Some true ->
  deletes w config tc message s.
Proof.
  intros Hv. unfold deletes. rewrite handle_message_verdict, Hv. unfold external. simpl.
  eexists. split; [reflexivity|done].
Qed.

Lemma deletes_not_retains message s :
  deletes w config tc message s -> retains w config tc message s -> False.
Proof.
  intros (ev & Hd & _) Hr. unfold retains in Hr. rewrite Hr in Hd.
  apply (f_equal length) in Hd. rewrite length_app in Hd. simpl in Hd. lia.
Qed.

(** C1 (amended).  For a decoded payload (the body decrypts, the four
    attributes are present, a recipient is named), one call of
    [_process_message] calls the Status Reporter exactly once when the
    payload has a ['job'] whose value is truthy, and never otherwise
    (no ['job'], or an empty or null one), whatever the collaborators
    answer: the dispatch may succeed, raise a classified failure or raise
    an unclassified one. *)
Theorem reporter_called_once_iff_job_truthy message s content to :
  loads w (dict_get config "SECRET_KEY") (dict_get config "DANGEROUS_SALT") (body message)
  = Ok content ->
  has_attributes message = true ->
  recipient content = Some to ->
  count is_reporter (events (_process_message w config message tc s).2) =
  count is_reporter (events s) + (if truthy (job_of content) then 1 else 0).
Proof.
  intros Hl Ha Hr. rewrite (process_message_outcome _ _ _ _ Hl Ha Hr).
  destruct (dispatch_spec message content (attribute_value message "type")
              (attribute_value message "service_id") (attribute_value message "template_id")
              (failed_store s) eq_refl) as (new & Hnew & Hrep & _).
  destruct (truthy _); simpl.
  - rewrite Hnew, !count_app, Hrep. simpl. lia.
  - rewrite Hnew, count_app, Hrep. simpl. lia.
Qed.

Lemma decode_failure_raises message e s :
  decode_failure w config message (events s) e ->
  (_process_message w config message tc s).1 = Raise e
  ∧ verdict (Raise e) = None
  ∧ count is_send (events (_process_message w config message tc s).2) = count is_send (events s).
Proof.
  intros [e' Hl H1 H2|content Hl Ha|content Hl Ha Hr|content to k Hl Ha Hr Hty Hk Hfin].
  - unfold _process_message, _decrypt_message, bind. rewrite Hl. simpl. by rewrite H1, H2.
  - unfold _process_message, _decrypt_message, bind. rewrite Hl.
    unfold has_attributes, attribute, ret, raise in *. cases; eauto.
  - unfold _process_message, _decrypt_message, bind. rewrite Hl.
    present_attributes Ha.
    unfold attribute, set_status, ret.
    repeat match goal with H : _ !! _ = Some _ |- _ => rewrite H end.
    unfold recipient, dict_in, getitem, raise in *.
    destruct (content !! "to"); [done|]. rewrite Hr. done.
  - rewrite (process_message_outcome message s content to Hl Ha Hr), Hty.
    assert (dispatch w message tc content (PStr "email") (attribute_value message "service_id")
              (attribute_value message "template_id") (failed_store s)
            = (Raise (Exn KeyError k), failed_store s)) as ->.
    { revert Hk. unfold missing_email_field. run. cases; simplify_eq/=; try done; by intros [= <-]. }
    simpl. destruct Hfin as [-> | ->]; [done|].
    destruct (truthy _); simpl; [|done]. rewrite count_app. simpl. split; [done|]. split; [done|lia].
Qed.

(** C2 (amended).  When an envelope fails to decode (the serializer
    rejects the body with its own exception, one of the attributes type,
    service_id, template_id, notification_id is missing, the payload has
    neither 'to' nor 'to_address', or an email payload lacks
    'from_address', 'to_address', 'subject' or 'body' and the finalizer
    raises nothing), [_process_message] raises that exception (the
    serializer's, AttributeError, KeyError) without any send; it is
    handled by neither [except] clause of the driver, so the message is
    not deleted and the rest of the batch is not processed. *)
Theorem undecodable_message_is_retained message s e :
  decode_failure w config message (events s) e ->
  (_process_message w config message tc s).1 = Raise e
  ∧ verdict (Raise e) = None
  ∧ count is_send (events (_process_message w config message tc s).2) = count is_send (events s)
  ∧ retains w config tc message s
  ∧ ∀ rest,
      for_each (message :: rest) (handle_message w config tc) s
      = (Raise e, (_process_message w config message tc s).2)
      ∧ count is_delete (events (for_each (message :: rest) (handle_message w config tc) s).2)
        = count is_delete (events s).
Proof.
  intros Hf. destruct (decode_failure_raises message e s Hf) as (Hr & Hv & Hsend).
  assert (handle_message w config tc message s
          = (Raise e, (_process_message w config message tc s).2)) as Hh.
  { rewrite handle_message_verdict, Hr, Hv. done. }
  repeat split; try done.
  - unfold retains. by rewrite Hh.
  - rewrite (for_each_raises _ message rest s e); by rewrite Hh.
  - rewrite (for_each_raises _ message rest s e); rewrite Hh; [|done]. simpl.
    destruct (process_message_log message s) as (new & -> & Hdel).
    rewrite count_app. lia.
Qed.

(** C3 (amended).  When [_process_message] raises, the driver deletes
    the message if and only if the exception is a ProcessingError.  An
    ExternalConnectionError retains it and the loop goes on; an
    InvalidResponse is handled by neither clause: the message is
    retained and the exception leaves the loop over the batch. *)
Theorem deleted_iff_processing_error message s e :
  (_process_message w config message tc s).1 = Raise e ->
  (deletes w config tc message s ↔ isinstance e ProcessingError = true)
  ∧ (retains w config tc message s ↔ isinstance e ProcessingError = false)
  ∧ (isinstance e ExternalConnectionError = true ->
     (handle_message w config tc message s).1 = Ok tt)
  ∧ (class_of e = InvalidResponse ->
     (handle_message w config tc message s).1 = Raise e ∧ retains w config tc message s).
Proof.
  intros He.
  assert (isinstance e ProcessingError = true -> deletes w config tc message s) as Hdel.
  { intros Hp. apply ok_deletes. rewrite He. simpl. by rewrite Hp. }
  assert (isinstance e ProcessingError = false -> retains w config tc message s) as Hret.
  { intros Hp. unfold retains. rewrite handle_message_verdict, He. simpl. rewrite Hp.
    by destruct (isinstance e ExternalConnectionError). }
  split; [|split; [|split]].
  - split; [|done]. intros Hd. destruct (isinstance e ProcessingError) eqn:Hp; [done|].
    destruct (deletes_not_retains message s Hd (Hret eq_refl)).
  - split; [|done]. intros Hr. destruct (isinstance e ProcessingError) eqn:Hp; [|done].
    destruct (deletes_not_retains message s (Hdel eq_refl) Hr).
  - intros Hx. rewrite handle_message_verdict, He. simpl.
    destruct e as [c ?|c ?]; unfold isinstance in *; simpl in *; destruct c; done.
  - intros Hc.
    assert (isinstance e ProcessingError = false ∧ isinstance e ExternalConnectionError = false)
      as [Hp Hx] by (unfold isinstance; rewrite Hc; done).
    split; [|auto]. rewrite handle_message_verdict, He. simpl. by rewrite Hp, Hx.
Qed.

Lemma dispatch_email message content sid tid from_address to_address subject body_ s :
  content !! "from_address" = Some from_address ->
  content !! "to_address" = Some to_address ->
  content !! "subject" = Some subject ->
  content !! "body" = Some body_ ->
  dispatch w message tc content (PStr "email") sid tid s =
  let answer := ses_send_email w (events s) from_address to_address subject body_ in
  let s1 := log_call (SesSendEmail from_address to_address subject body_) (raised_of answer) s in
  match answer with
  | Ok _ => (Ok tt, {| events := events s1; status_var := PStr "sent" |})
  | Raise e =>
      (Raise (if isinstance e AwsSesClientException then ExnOf ProcessingError e else e), s1)
  end.
Proof.
  intros Hf Hta Hsu Hb. run. rewrite Hf, Hta, Hsu, Hb. simpl.
  destruct (ses_send_email _ _ _ _ _ _); simpl; [done|]. by cases.
Qed.

Lemma dispatch_sms_nothing message content sid tid s :
  content !! "content" = None ->
  content !! "template" = None ->
  dispatch w message tc content (PStr "sms") sid tid s = (Ok tt, s).
Proof. intros Hc Ht. run. by rewrite Hc, Ht. Qed.

(** C4 (amended).  For a decoded request of type 'sms' whose payload has
    no 'content' but has a 'template' key, [_process_message] first calls
    the Template Resolver with (service_id, template_id); when the
    resolver answers with a template that has a 'content' and the payload
    has a 'to' key, the next call sends that content to the payload's 'to'
    through the SMS gateway.  A payload that names its recipient under
    'to_address' only is resolved as well, but nothing is sent. *)
Theorem template_resolved_then_sent message s content to :
  loads w (dict_get config "SECRET_KEY") (dict_get config "DANGEROUS_SALT") (body message)
  = Ok content ->
  has_attributes message = true ->
  recipient content = Some to ->
  attribute_value message "type" = PStr "sms" ->
  content !! "content" = None ->
  is_Some (content !! "template") ->
  let sid := attribute_value message "service_id" in
  let tid := attribute_value message "template_id" in
  let answer := api_get_template w (events s) sid tid in
  let resolve := {| ev_call := GetTemplate sid tid; ev_raised := raised_of answer |} in
  ∃ rest,
    events (_process_message w config message tc s).2 = events s ++ resolve :: rest
    ∧ (∀ template text number,
         answer = Ok template -> template !! "content" = Some text ->
         content !! "to" = Some number ->
         ∃ rest',
           rest = {| ev_call := MessagesCreate text number (Twilio.from_number tc);
                     ev_raised := raised_of (messages_create w (events s ++ [resolve]) text
                                               number (Twilio.from_number tc)) |} :: rest')
    ∧ (content !! "to" = None -> count is_send rest = 0).
Proof.
  intros Hl Ha Hr Hty Hc [t Ht] sid tid answer resolve.
  rewrite (process_message_outcome message s content to Hl Ha Hr).
  rewrite Hty. fold sid tid.
  assert (∃ rest, events (dispatch w message tc content (PStr "sms") sid tid (failed_store s)).2
                  = events s ++ resolve :: rest
          ∧ (∀ template text number,
               answer = Ok template -> template !! "content" = Some text ->
               content !! "to" = Some number ->
               ∃ rest', rest = {| ev_call := MessagesCreate text number (Twilio.from_number tc);
                     ev_raised := raised_of (messages_create w (events s ++ [resolve]) text
                                               number (Twilio.from_number tc)) |} :: rest')
          ∧ (content !! "to" = None -> count is_send rest = 0))
    as (rest & Hd & Hrest & Hnone).
  { subst resolve answer. run. rewrite Hc, Ht. simpl.
    destruct (api_get_template w (events s) sid tid) as [template|e]; simpl.
    - destruct (template !! "content") as [text|] eqn:Htext; simpl.
      + destruct (content !! "to") as [number|] eqn:Hto; simpl.
        * destruct (messages_create _ _ _ _ _) eqn:Hcreate; simpl; cases; simpl;
            rewrite <- ?app_assoc; simpl; eexists; (split; [reflexivity|]);
            (split; [|done]);
            intros ? ? ? [= <-] ? ?; simplify_eq; rewrite Hcreate; eauto.
        * eexists. split; [reflexivity|]. split; [|done]. intros; done.
      + eexists. split; [reflexivity|]. split; [|done]. intros ? ? ? [= <-] ?. simplify_eq.
    - cases; simpl; eexists; (split; [reflexivity|]); (split; [|done]); intros; done. }
  destruct (truthy _); simpl.
  - eexists. rewrite Hd, <- app_assoc. simpl. split; [reflexivity|]. split.
    + intros template text number Hans Htext Hto.
      destruct (Hrest template text number Hans Htext Hto) as [rest' ->].
      simpl. eauto.
    + intros Hto. rewrite count_app, (Hnone Hto). done.
  - exists rest. eauto.
Qed.

(** C5.  When the call of the Status Reporter in the [finally] block
    fails, [_process_message] raises the reporter's error, whatever the
    dispatch did before: ExternalConnectionError for a 503, ProcessingError
    for any other HTTPError, InvalidResponse for an InvalidResponse (any
    other exception as it is); and the driver decides on that error: it
    retains the message for the first and deletes it for the second. *)
Theorem reporter_failure_supersedes message s new i rep e0 :
  events (_process_message w config message tc s).2 = events s ++ new ->
  new !! i = Some rep -> is_reporter rep = true -> ev_raised rep = Some e0 ->
  let final :=
    if isinstance e0 HTTP503Error then ExnOf ExternalConnectionError e0
    else if isinstance e0 HTTPError then ExnOf ProcessingError e0
    else if isinstance e0 InvalidResponse then ExnOf InvalidResponse e0
    else e0 in
  (_process_message w config message tc s).1 = Raise final
  ∧ handle_message w config tc message s =
    match verdict (Raise final) with
    | Some true =>
        external (DeleteMessage message) (fun h => sqs_delete w h message)
          (_process_message w config message tc s).2
    | Some false => (Ok tt, (_process_message w config message tc s).2)
    | None => (Raise final, (_process_message w config message tc s).2)
    end
  ∧ (isinstance e0 HTTP503Error = true -> retains w config tc message s)
  ∧ (isinstance e0 HTTP503Error = false -> isinstance e0 HTTPError = true ->
     deletes w config tc message s).
Proof.
  intros Hnew Hi Hrep Hraised final.
  apply list_elem_of_lookup_2 in Hi.
  destruct (reporter_failure message s new rep e0 Hnew Hi Hrep Hraised) as [Hfinal _].
  change (api_error e0) with final in Hfinal.
  assert (handle_message w config tc message s =
          match verdict (Raise final) with
          | Some true =>
              external (DeleteMessage message) (fun h => sqs_delete w h message)
                (_process_message w config message tc s).2
          | Some false => (Ok tt, (_process_message w config message tc s).2)
          | None => (Raise final, (_process_message w config message tc s).2)
          end) as Hh.
  { rewrite handle_message_verdict, Hfinal. done. }
  repeat split; try done.
  - intros H503. unfold retains. rewrite Hh. subst final. rewrite H503. done.
  - intros H503 Hhttp. apply ok_deletes. rewrite Hfinal. subst final. rewrite H503, Hhttp. done.
Qed.

(** C7 (amended).  For a decoded request of type 'sms' whose payload has
    neither 'content' nor 'template', the dispatch calls nothing and
    raises nothing and the status stays 'failed'; the Status Reporter is
    called, with status 'failed', exactly when the payload has a truthy
    'job'; and when that call does not fail (or is not made) the message
    is deleted. *)
Theorem sms_without_content_or_template message s content to :
  loads w (dict_get config "SECRET_KEY") (dict_get config "DANGEROUS_SALT") (body message)
  = Ok content ->
  has_attributes message = true ->
  recipient content = Some to ->
  attribute_value message "type" = PStr "sms" ->
  content !! "content" = None ->
  content !! "template" = None ->
  let report := CreateNotification (attribute_value message "service_id")
                  (attribute_value message "template_id") (job_of content) to (PStr "failed")
                  (attribute_value message "notification_id") in
  let answer := api_create_notification w (events s) (attribute_value message "service_id")
                  (attribute_value message "template_id") (job_of content) to (PStr "failed")
                  (attribute_value message "notification_id") in
  dispatch w message tc content (PStr "sms") (attribute_value message "service_id")
    (attribute_value message "template_id") (failed_store s) = (Ok tt, failed_store s)
  ∧ status_var (_process_message w config message tc s).2 = PStr "failed"
  ∧ events (_process_message w config message tc s).2 =
    events s ++ (if truthy (job_of content)
                 then [{| ev_call := report; ev_raised := raised_of answer |}] else [])
  ∧ (finalizer_succeeds w message content to (PStr "failed") (events s) ->
     (_process_message w config message tc s).1 = Ok tt
     ∧ deletes w config tc message s).
Proof.
  intros Hl Ha Hr Hty Hc Ht report answer.
  pose proof (process_message_outcome message s content to Hl Ha Hr) as Hpm.
  simpl in Hpm. rewrite Hty in Hpm.
  rewrite (dispatch_sms_nothing message content _ _ (failed_store s) Hc Ht) in Hpm.
  pose proof (ok_deletes message s) as Hdel.
  simpl in Hpm. fold answer in Hpm.
  split; [by apply dispatch_sms_nothing|].
  rewrite Hpm in Hdel |- *. clear Hpm.
  split; [by destruct (truthy _)|].
  split; [destruct (truthy _); simpl; [done|by rewrite app_nil_r]|].
  intros [Hj|Hfin].
  - rewrite Hj in *. auto.
  - fold answer in Hfin. rewrite Hfin in *. destruct (truthy _); simpl in *; auto.
Qed.

(** C8 (amended).  For a decoded request of type 'email' with its four
    fields, the first call of [_process_message] is the email gateway's
    send with (from_address, to_address, subject, body), and it is the
    only send.  If it succeeds the status is 'sent' and, when the
    finalizer raises nothing, the call returns and the driver deletes the
    message.  If it fails with the gateway's AwsSesClientException the
    dispatch raises ProcessingError and, when the finalizer raises
    nothing, so does the call, and the driver deletes the message. *)
Theorem email_sent_and_deleted message s content to from_address to_address subject body_ :
  loads w (dict_get config "SECRET_KEY") (dict_get config "DANGEROUS_SALT") (body message)
  = Ok content ->
  has_attributes message = true ->
  recipient content = Some to ->
  attribute_value message "type" = PStr "email" ->
  content !! "from_address" = Some from_address ->
  content !! "to_address" = Some to_address ->
  content !! "subject" = Some subject ->
  content !! "body" = Some body_ ->
  let answer := ses_send_email w (events s) from_address to_address subject body_ in
  let sent := {| ev_call := SesSendEmail from_address to_address subject body_;
                 ev_raised := raised_of answer |} in
  (∃ rest, events (_process_message w config message tc s).2 = events s ++ sent :: rest
           ∧ count is_send rest = 0)
  ∧ (∀ id, answer = Ok id ->
       status_var (_process_message w config message tc s).2 = PStr "sent"
       ∧ (finalizer_succeeds w message content to (PStr "sent") (events s ++ [sent]) ->
          (_process_message w config message tc s).1 = Ok tt
          ∧ deletes w config tc message s))
  ∧ (∀ e, answer = Raise e -> isinstance e AwsSesClientException = true ->
       (dispatch w message tc content (PStr "email") (attribute_value message "service_id")
          (attribute_value message "template_id") (failed_store s)).1
       = Raise (ExnOf ProcessingError e)
       ∧ (finalizer_succeeds w message content to (PStr "failed") (events s ++ [sent]) ->
          (_process_message w config message tc s).1 = Raise (ExnOf ProcessingError e)
          ∧ deletes w config tc message s)).
Proof.
  intros Hl Ha Hr Hty Hf Hta Hsu Hb answer sent.
  pose proof (process_message_outcome message s content to Hl Ha Hr) as Hpm.
  simpl in Hpm. rewrite Hty in Hpm.
  rewrite (dispatch_email message content _ _ _ _ _ _ (failed_store s) Hf Hta Hsu Hb) in Hpm.
  pose proof (ok_deletes message s) as Hdel.
  simpl in Hpm. fold answer in Hpm.
  split; [|split].
  - rewrite Hpm. destruct answer as [id|e]; simpl; destruct (truthy _); simpl;
      rewrite <- ?app_assoc; eexists; (split; [reflexivity|done]).
  - intros id Hans. rewrite Hpm in Hdel |- *. clear Hpm. subst sent. rewrite Hans in *. simpl in *.
    split; [by destruct (truthy _)|].
    intros [Hj|Hfin].
    + rewrite Hj in *. simpl in *. auto.
    + rewrite Hfin in *. destruct (truthy _); simpl in *; auto.
  - intros e Hans Hcls.
    rewrite (dispatch_email message content _ _ _ _ _ _ (failed_store s) Hf Hta Hsu Hb).
    simpl. fold answer. rewrite Hans, Hcls. split; [done|].
    rewrite Hpm in Hdel |- *. clear Hpm. subst sent. rewrite Hans in *. rewrite Hcls in *.
    simpl in *.
    intros [Hj|Hfin].
    + rewrite Hj in *. simpl in *. auto.
    + rewrite Hfin in *. destruct (truthy _); simpl in *; auto.
Qed.

(** C9.  When a gateway send of the call succeeded and the Status
    Reporter then raises a 503, [_process_message] raises
    ExternalConnectionError, the status passed to the reporter was
    'sent', and the driver retains the message: it calls no delete, so
    the delivered message will be received and sent again. *)
Theorem sent_but_reporter_unavailable message s new i sent j rep e0 :
  events (_process_message w config message tc s).2 = events s ++ new ->
  new !! i = Some sent -> is_send sent = true -> ev_raised sent = None ->
  new !! j = Some rep -> is_reporter rep = true -> ev_raised rep = Some e0 ->
  isinstance e0 HTTP503Error = true ->
  (_process_message w config message tc s).1 = Raise (ExnOf ExternalConnectionError e0)
  ∧ (∃ sid tid job to nid, ev_call rep = CreateNotification sid tid job to (PStr "sent") nid)
  ∧ (handle_message w config tc message s).1 = Ok tt
  ∧ retains w config tc message s
  ∧ count is_delete (events (handle_message w config tc message s).2) = count is_delete (events s).
Proof.
  intros Hnew Hi Hsend Hok Hj Hrep Hraised H503.
  apply list_elem_of_lookup_2 in Hi, Hj.
  destruct (reporter_failure message s new rep e0 Hnew Hj Hrep Hraised)
    as (Hfinal & sid & tid & job & to & status & nid & newd & Hcall & -> & Hst).
  unfold api_error in Hfinal. rewrite H503 in Hfinal.
  assert (handle_message w config tc message s
          = (Ok tt, (_process_message w config message tc s).2)) as Hh.
  { rewrite handle_message_verdict, Hfinal. done. }
  split; [done|]. split; [|split; [by rewrite Hh|split; [unfold retains; by rewrite Hh|]]].
  - exists sid, tid, job, to, nid. rewrite Hcall. f_equal.
    destruct Hst as [->|Hnone]; [done|].
    apply elem_of_app in Hi as [Hi|Hi].
    + destruct (Hnone sent Hi Hsend Hok).
    + apply list_elem_of_singleton in Hi as ->. unfold is_send in Hsend. by rewrite Hcall in Hsend.
  - rewrite Hh. simpl. destruct (process_message_log message s) as (new' & -> & Hdel).
    rewrite count_app. lia.
Qed.

(** ** The loops over the batch and over the queues *)

Lemma handle_message_extends message s : extends s (handle_message w config tc message s).2.
Proof.
  rewrite handle_message_verdict.
  destruct (process_message_log message s) as (new & Hnew & _).
  assert (extends s (_process_message w config message tc s).2) as Hpm by by exists new.
  destruct (verdict _) as [[]|]; simpl; [|done..].
  eapply extends_trans; [done|]. unfold log_call. simpl. by eexists.
Qed.

(** The handler [except Exception] lets nothing out of a queue. *)
Lemma process_queue_ok queue s : (process_queue w config tc queue s).1 = Ok tt.
Proof.
  unfold process_queue, try_except_all, ret.
  by destruct (process_batch w config tc queue s) as [[[]|e] s1].
Qed.

Lemma process_queue_polls queue s max_number visibility_timeout attribute_names :
  config !! "PROCESSOR_MAX_NUMBER_OF_MESSAGES" = Some max_number ->
  config !! "PROCESSOR_VISIBILITY_TIMEOUT" = Some visibility_timeout ->
  config !! "NOTIFICATION_ATTRIBUTES" = Some attribute_names ->
  ∃ poll rest, events (process_queue w config tc queue s).2 = events s ++ poll :: rest
               ∧ is_poll_of queue poll = true.
Proof.
  intros Hm Hv Ha.
  unfold process_queue, try_except_all, process_batch, bind, getitem, external, ret, raise.
  rewrite Hm, Hv, Ha.
  destruct (sqs_receive_messages _ _ _ _ _ _) as [messages|e]; simpl.
  2:{ eexists _, []. split; [reflexivity|]. unfold is_poll_of. simpl. by apply bool_decide_eq_true. }
  match goal with |- context [for_each ?l ?b ?s0] =>
    pose proof (for_each_extends b l handle_message_extends s0) as [new Hx];
    destruct (for_each l b s0) as [[[]|e] s1] end; simpl in *;
    rewrite Hx, <- app_assoc; eexists _, _; (split; [reflexivity|]);
    unfold is_poll_of; simpl; by apply bool_decide_eq_true.
Qed.

(** Every queue of the list is polled, and the loop ends normally. *)
Lemma queues_all_polled queues s max_number visibility_timeout attribute_names :
  config !! "PROCESSOR_MAX_NUMBER_OF_MESSAGES" = Some max_number ->
  config !! "PROCESSOR_VISIBILITY_TIMEOUT" = Some visibility_timeout ->
  config !! "NOTIFICATION_ATTRIBUTES" = Some attribute_names ->
  (for_each queues (process_queue w config tc) s).1 = Ok tt
  ∧ ∃ new, events (for_each queues (process_queue w config tc) s).2 = events s ++ new
           ∧ ∀ queue, queue ∈ queues -> ∃ poll, poll ∈ new ∧ is_poll_of queue poll = true.
Proof.
  intros Hm Hv Ha. revert s. induction queues as [|q queues IH]; intros s; simpl.
  - split; [done|]. exists []. rewrite app_nil_r. split; [done|]. by intros ? ?%elem_of_nil.
  - unfold bind. pose proof (process_queue_ok q s) as Hok.
    destruct (process_queue_polls q s _ _ _ Hm Hv Ha) as (poll & rest & Hq & Hpoll).
    destruct (process_queue w config tc q s) as [r s1]. simpl in *. subst r.
    destruct (IH s1) as (Hr & new & Hnew & Hall). split; [done|].
    exists ((poll :: rest) ++ new). rewrite Hnew, Hq, <- app_assoc. split; [done|].
    intros queue [->|Hin]%elem_of_cons.
    + exists poll. split; [|done]. apply elem_of_app. left. apply elem_of_cons. by left.
    + destruct (Hall queue Hin) as (p & Hp & Hpp). exists p. split; [|done].
      apply elem_of_app. by right.
Qed.

(** The loop over a batch stops at the first message whose exception no
    clause handles. *)
Lemma batch_stops_at_failure pre message post e s0 s_pre :
  for_each pre (handle_message w config tc) s0 = (Ok tt, s_pre) ->
  (_process_message w config message tc s_pre).1 = Raise e ->
  verdict (Raise e) = None ->
  for_each (pre ++ message :: post) (handle_message w config tc) s0
  = (Raise e, (_process_message w config message tc s_pre).2).
Proof.
  intros Hpre He Hverdict. revert s0 Hpre.
  induction pre as [|x pre IH]; intros s0 Hpre.
  - simpl in Hpre. injection Hpre as Hs. subst s0. rewrite app_nil_l.
    assert ((handle_message w config tc message s_pre).1 = Raise e) as Hh.
    { rewrite handle_message_verdict, He, Hverdict. done. }
    rewrite (for_each_raises _ _ _ _ e Hh).
    rewrite handle_message_verdict, He, Hverdict. done.
  - simpl in *. unfold bind in *.
    destruct (handle_message w config tc x s0) as [[[]|e'] s1]; [by apply IH|done].
Qed.

(** C6.  In a cycle, let the batch received from a queue be
    [pre ++ message :: post], the messages of [pre] be handled, and
    [_process_message] raise on [message] an exception that neither
    [except] clause handles.  Then nothing is deleted from there on in
    this queue (the processing of the queue ends in the store the failed
    call left), and the cycle goes on with the queues that follow: each
    of them is polled and the loop over them ends normally. *)
Theorem unclassified_failure_abandons_batch_only
    queue later s max_number visibility_timeout attribute_names pre message post e s_pre :
  config !! "PROCESSOR_MAX_NUMBER_OF_MESSAGES" = Some max_number ->
  config !! "PROCESSOR_VISIBILITY_TIMEOUT" = Some visibility_timeout ->
  config !! "NOTIFICATION_ATTRIBUTES" = Some attribute_names ->
  sqs_receive_messages w (events s) queue max_number visibility_timeout attribute_names
  = Ok (pre ++ message :: post) ->
  for_each pre (handle_message w config tc)
    (log_call (ReceiveMessages queue max_number visibility_timeout attribute_names) None s)
  = (Ok tt, s_pre) ->
  (_process_message w config message tc s_pre).1 = Raise e ->
  verdict (Raise e) = None ->
  let s_fail := (_process_message w config message tc s_pre).2 in
  (∃ new, events s_fail = events s_pre ++ new ∧ count is_delete new = 0)
  ∧ process_queue w config tc queue s = (Ok tt, s_fail)
  ∧ for_each (queue :: later) (process_queue w config tc) s
    = for_each later (process_queue w config tc) s_fail
  ∧ (for_each later (process_queue w config tc) s_fail).1 = Ok tt
  ∧ ∃ new, events (for_each later (process_queue w config tc) s_fail).2 = events s_fail ++ new
           ∧ ∀ queue', queue' ∈ later -> ∃ poll, poll ∈ new ∧ is_poll_of queue' poll = true.
Proof.
  intros Hm Hv Ha Hrecv Hpre He Hverdict s_fail.
  assert (process_queue w config tc queue s = (Ok tt, s_fail)) as Hq.
  { unfold process_queue, try_except_all, process_batch, bind, getitem, external, ret.
    rewrite Hm, Hv, Ha, Hrecv. simpl.
    by rewrite (batch_stops_at_failure pre message post e _ s_pre Hpre He Hverdict). }
  split; [apply process_message_log|].
  split; [done|].
  split; [simpl; unfold bind; by rewrite Hq|].
  by apply (queues_all_polled later s_fail _ _ _ Hm Hv Ha).
Qed.
End Processor.

(** ** The SMS client *)


(** * More of the code *)

Lemma count_forallb (p q : Event -> bool) (l : list Event) :
  forallb q l = true -> (∀ ev, q ev = true -> p ev = false) -> count p l = 0.
Proof.
  intros Hall Hpq. induction l as [|ev l IH]; simpl in *; [done|].
  apply andb_prop in Hall as [Hq Hl]. rewrite (Hpq ev Hq), IH; done.
Qed.

Lemma existsb_forallb_false (p q : Event -> bool) (l : list Event) :
  forallb q l = true -> (∀ ev, q ev = true -> p ev = false) -> existsb p l = false.
Proof.
  intros Hall Hpq. induction l as [|ev l IH]; simpl in *; [done|].
  apply andb_prop in Hall as [Hq Hl]. rewrite (Hpq ev Hq), IH; done.
Qed.

Lemma forallb_impl (p q : Event -> bool) (l : list Event) :
  forallb p l = true -> (∀ ev, p ev = true -> q ev = true) -> forallb q l = true.
Proof.
  intros Hall Hpq. induction l as [|ev l IH]; simpl in *; [done|].
  apply andb_prop in Hall as [Hp Hl]. rewrite (Hpq ev Hp), IH; done.
Qed.

Lemma forallb_elem (p : Event -> bool) (l : list Event) ev :
  forallb p l = true -> ev ∈ l -> p ev = true.
Proof.
  intros Hall Hin. induction l as [|x l IH]; simpl in *.
  - by apply elem_of_nil in Hin.
  - apply andb_prop in Hall as [Hp Hl]. apply elem_of_cons in Hin as [->|Hin]; auto.
Qed.

Lemma send_or_resolver_cases ev :
  is_send ev || is_resolver ev = true ->
  is_reporter ev = false ∧ is_delete ev = false ∧ is_poll ev = false
  ∧ is_message_call ev = true.
Proof.
  unfold is_send, is_resolver, is_reporter, is_delete, is_poll, is_message_call,
    is_send, is_resolver, is_reporter.
  destruct (ev_call ev); simpl; intros; done.
Qed.

Section Coverage.
Context (w : World) (config : gmap string pyval) (tc : Twilio.TwilioClient).

Lemma dispatch_calls message content type_ sid tid s :
  status_var s = PStr "failed" ->
  ∃ new, events (dispatch w message tc content type_ sid tid s).2 = events s ++ new
    ∧ forallb (fun ev => is_send ev || is_resolver ev) new = true
    ∧ (count is_send new ≤ 1)%nat ∧ (count is_resolver new ≤ 1)%nat
    ∧ (status_var (dispatch w message tc content type_ sid tid s).2 = PStr "sent"
       ∧ existsb sent_ok new = true
       ∧ (dispatch w message tc content type_ sid tid s).1 = Ok tt
       ∨ status_var (dispatch w message tc content type_ sid tid s).2 = PStr "failed"
         ∧ existsb sent_ok new = false).
Proof.
  intros Hs. run.
  cases; rewrite <- ?app_assoc; simpl;
    try (exists []; rewrite app_nil_r; simpl; repeat split; auto; lia);
    eexists; (split; [reflexivity|]); simpl; repeat split; auto; try lia.
Qed.

(** The calls of one message. *)
Lemma process_message_budget message s :
  ∃ new, events (_process_message w config message tc s).2 = events s ++ new
    ∧ forallb is_message_call new = true
    ∧ (count is_send new ≤ 1)%nat
    ∧ (count is_resolver new ≤ 1)%nat
    ∧ (count is_reporter new ≤ 1)%nat
    ∧ count is_delete new = 0
    ∧ count is_poll new = 0.
Proof.
  destruct (process_message_undecoded w config tc message s)
    as [(content & to & Hl & Ha & Hr)|(e & _ & He)].
  2:{ exists []. rewrite app_nil_r. simpl. repeat split; auto. }
  rewrite (process_message_outcome w config tc _ _ _ _ Hl Ha Hr).
  destruct (dispatch_calls message content (attribute_value message "type")
              (attribute_value message "service_id") (attribute_value message "template_id")
              (failed_store s) eq_refl) as (newd & Hd & Hall & Hsend & Hres & _).
  assert (count is_reporter newd = 0) as Hrep
    by (apply (count_forallb _ _ _ Hall); intros ev Hev; apply send_or_resolver_cases, Hev).
  assert (count is_delete newd = 0) as Hdel
    by (apply (count_forallb _ _ _ Hall); intros ev Hev; apply send_or_resolver_cases, Hev).
  assert (count is_poll newd = 0) as Hpoll
    by (apply (count_forallb _ _ _ Hall); intros ev Hev; apply send_or_resolver_cases, Hev).
  assert (forallb is_message_call newd = true) as Hmc.
  { apply (forallb_impl _ _ _ Hall). intros ev Hev. by apply send_or_resolver_cases. }
  destruct (truthy _); simpl.
  - eexists. rewrite Hd, <- app_assoc. split; [reflexivity|].
    rewrite forallb_app, !count_app, Hmc, Hrep, Hdel, Hpoll. simpl.
    repeat split; auto; lia.
  - exists newd. rewrite Hrep. repeat split; auto.
Qed.

(** X9.  One call of [_process_message] makes only gateway sends, resolver
    calls and reporter calls: at most one of each, never a delete and
    never a poll, whatever the message and the world. *)
Theorem process_message_calls message s :
  ∃ new, events (_process_message w config message tc s).2 = events s ++ new
    ∧ forallb is_message_call new = true
    ∧ (count is_send new ≤ 1)%nat
    ∧ (count is_resolver new ≤ 1)%nat
    ∧ (count is_reporter new ≤ 1)%nat
    ∧ count is_delete new = 0
    ∧ count is_poll new = 0.
Proof. exact (process_message_budget message s). Qed.

(** X10.  When a decoded message makes [_process_message] call the
    reporter, the job is truthy, the call is the last one, and its record
    is (service_id, template_id, job, recipient, status, notification_id)
    with the attributes and payload of this message; the status is 'sent'
    exactly when a gateway send of this call succeeded, 'failed'
    otherwise. *)
Theorem reporter_record message s content to new i rep :
  loads w (dict_get config "SECRET_KEY") (dict_get config "DANGEROUS_SALT") (body message)
  = Ok content ->
  has_attributes message = true ->
  recipient content = Some to ->
  events (_process_message w config message tc s).2 = events s ++ new ->
  new !! i = Some rep ->
  is_reporter rep = true ->
  ∃ status,
    ev_call rep = CreateNotification (attribute_value message "service_id")
                    (attribute_value message "template_id") (job_of content) to status
                    (attribute_value message "notification_id")
    ∧ truthy (job_of content) = true
    ∧ S i = length new
    ∧ (status = PStr "sent" ∧ existsb sent_ok new = true
       ∨ status = PStr "failed" ∧ existsb sent_ok new = false).
Proof.
  intros Hl Ha Hr Hnew Hi Hrep.
  rewrite (process_message_outcome w config tc _ _ _ _ Hl Ha Hr) in Hnew.
  destruct (dispatch_calls message content (attribute_value message "type")
              (attribute_value message "service_id") (attribute_value message "template_id")
              (failed_store s) eq_refl) as (newd & Hd & Hall & _ & _ & Hst).
  assert (∀ ev, ev ∈ newd -> is_reporter ev = false) as Hnorep.
  { intros ev Hin. apply send_or_resolver_cases. by apply (forallb_elem _ _ _ Hall). }
  destruct (truthy (job_of content)) eqn:Hjob; simpl in Hnew.
  2:{ rewrite Hd in Hnew. apply app_inv_head in Hnew as <-.
      apply list_elem_of_lookup_2 in Hi. by rewrite (Hnorep rep Hi) in Hrep. }
  rewrite Hd, <- app_assoc in Hnew. apply app_inv_head in Hnew as <-.
  destruct (decide (i < length newd)%nat) as [Hlt|Hge].
  { rewrite lookup_app_l in Hi by done. apply list_elem_of_lookup_2 in Hi.
    by rewrite (Hnorep rep Hi) in Hrep. }
  rewrite lookup_app_r in Hi by lia.
  destruct (i - length newd)%nat as [|n] eqn:Hidx; simpl in Hi; [|done].
  injection Hi as <-. eexists. split; [reflexivity|]. split; [done|].
  split; [rewrite length_app; simpl; lia|].
  rewrite existsb_app. simpl. rewrite !orb_false_r.
  destruct Hst as [(-> & -> & _)|(-> & ->)]; auto.
Qed.

Lemma dispatch_sms_inline message content sid tid text to s :
  content !! "content" = Some text ->
  content !! "to" = Some to ->
  dispatch w message tc content (PStr "sms") sid tid s =
  let answer := messages_create w (events s) text to (Twilio.from_number tc) in
  let s1 := log_call (MessagesCreate text to (Twilio.from_number tc)) (raised_of answer) s in
  match answer with
  | Ok _ => (Ok tt, {| events := events s1; status_var := PStr "sent" |})
  | Raise e =>
      (Raise (if isinstance e TwilioRestException
              then ExnOf ProcessingError (ExnOf TwilioClientException e)
              else if isinstance e TwilioClientException then ExnOf ProcessingError e
              else e), s1)
  end.
Proof.
  intros Hc Hto. run. rewrite Hc, Hto. simpl.
  destruct (messages_create _ _ _ _ _); simpl; [done|]. by cases.
Qed.

(** X3.  A decoded SMS whose payload has a 'content' and a 'to' is sent
    with that content to that number as the first and only send, and the
    resolver is not called, also when the payload has a 'template' too.
    If the provider accepts it the status is 'sent' and, the finalizer
    raising nothing, the message is deleted; if the provider's REST client
    raises TwilioRestException the call raises
    ProcessingError(TwilioClientException(e)) and, the finalizer raising
    nothing, the message is deleted as well. *)
Theorem inline_sms_sent_without_resolver message s content to text :
  loads w (dict_get config "SECRET_KEY") (dict_get config "DANGEROUS_SALT") (body message)
  = Ok content ->
  has_attributes message = true ->
  attribute_value message "type" = PStr "sms" ->
  content !! "content" = Some text ->
  content !! "to" = Some to ->
  let answer := messages_create w (events s) text to (Twilio.from_number tc) in
  let sent := {| ev_call := MessagesCreate text to (Twilio.from_number tc);
                 ev_raised := raised_of answer |} in
  (∃ rest, events (_process_message w config message tc s).2 = events s ++ sent :: rest
           ∧ count is_send rest = 0 ∧ count is_resolver rest = 0)
  ∧ (∀ sid, answer = Ok sid ->
       status_var (_process_message w config message tc s).2 = PStr "sent"
       ∧ (finalizer_succeeds w message content to (PStr "sent") (events s ++ [sent]) ->
          (_process_message w config message tc s).1 = Ok tt
          ∧ deletes w config tc message s))
  ∧ (∀ e, answer = Raise e -> isinstance e TwilioRestException = true ->
       finalizer_succeeds w message content to (PStr "failed") (events s ++ [sent]) ->
       (_process_message w config message tc s).1
       = Raise (ExnOf ProcessingError (ExnOf TwilioClientException e))
       ∧ deletes w config tc message s).
Proof.
  intros Hl Ha Hty Hc Hto answer sent.
  assert (recipient content = Some to) as Hr by (unfold recipient; by rewrite Hto).
  pose proof (process_message_outcome w config tc message s content to Hl Ha Hr) as Hpm.
  simpl in Hpm. rewrite Hty in Hpm.
  rewrite (dispatch_sms_inline message content _ _ _ _ (failed_store s) Hc Hto) in Hpm.
  pose proof (ok_deletes w config tc message s) as Hdel.
  simpl in Hpm. fold answer in Hpm.
  split; [|split].
  - rewrite Hpm. destruct answer as [id|e]; simpl; destruct (truthy _); simpl;
      rewrite <- ?app_assoc; eexists; (split; [reflexivity|done]).
  - intros id Hans. rewrite Hpm in Hdel |- *. clear Hpm. subst sent. rewrite Hans in *. simpl in *.
    split; [by destruct (truthy _)|].
    intros [Hj|Hfin].
    + rewrite Hj in *. simpl in *. auto.
    + rewrite Hfin in *. destruct (truthy _); simpl in *; auto.
  - intros e Hans Hcls.
    rewrite Hpm in Hdel |- *. clear Hpm. subst sent. rewrite Hans in *. rewrite Hcls in *.
    simpl in *.
    intros [Hj|Hfin].
    + rewrite Hj in *. simpl in *. auto.
    + rewrite Hfin in *. destruct (truthy _); simpl in *; auto.
Qed.

Lemma unhandled_outcome message s e :
  (_process_message w config message tc s).1 = Raise e ->
  verdict (Raise e) = None ->
  retains w config tc message s
  ∧ ∀ rest, for_each (message :: rest) (handle_message w config tc) s
            = (Raise e, (_process_message w config message tc s).2).
Proof.
  intros He Hv.
  assert (handle_message w config tc message s
          = (Raise e, (_process_message w config message tc s).2)) as Hh.
  { rewrite handle_message_verdict, He, Hv. done. }
  split; [unfold retains; by rewrite Hh|].
  intros rest. rewrite (for_each_raises _ message rest s e); by rewrite Hh.
Qed.

(** X5.  An inline SMS whose payload names its recipient under
    'to_address' only is decoded, but [TwilioClient.send_sms] reads
    notification['to']: KeyError('to') is raised before the provider is
    called, neither clause of the driver handles it, and (the finalizer
    raising nothing) the message is kept and the rest of the batch is not
    processed. *)
Theorem sms_without_to_key_is_not_sent message s content to text :
  loads w (dict_get config "SECRET_KEY") (dict_get config "DANGEROUS_SALT") (body message)
  = Ok content ->
  has_attributes message = true ->
  attribute_value message "type" = PStr "sms" ->
  content !! "content" = Some text ->
  content !! "to" = None ->
  content !! "to_address" = Some to ->
  finalizer_succeeds w message content to (PStr "failed") (events s) ->
  (_process_message w config message tc s).1 = Raise (Exn KeyError "to")
  ∧ count is_send (events (_process_message w config message tc s).2) = count is_send (events s)
  ∧ retains w config tc message s
  ∧ ∀ rest, for_each (message :: rest) (handle_message w config tc) s
            = (Raise (Exn KeyError "to"), (_process_message w config message tc s).2).
Proof.
  intros Hl Ha Hty Hc Hto Hta Hfin.
  assert (recipient content = Some to) as Hr by (unfold recipient; by rewrite Hto).
  pose proof (process_message_outcome w config tc message s content to Hl Ha Hr) as Hpm.
  simpl in Hpm. rewrite Hty in Hpm.
  assert (dispatch w message tc content (PStr "sms") (attribute_value message "service_id")
            (attribute_value message "template_id") (failed_store s)
          = (Raise (Exn KeyError "to"), failed_store s)) as Hd.
  { run. rewrite Hc, Hto. done. }
  rewrite Hd in Hpm. simpl in Hpm.
  assert ((_process_message w config message tc s).1 = Raise (Exn KeyError "to")) as Hres.
  { rewrite Hpm. destruct Hfin as [-> | ->]; [done|]. by destruct (truthy _). }
  split; [done|]. split.
  { rewrite Hpm. destruct (truthy _); simpl; [|done]. rewrite count_app. simpl. lia. }
  by apply unhandled_outcome.
Qed.

Lemma finalizer_outcome message s content to rd sd :
  loads w (dict_get config "SECRET_KEY") (dict_get config "DANGEROUS_SALT") (body message)
  = Ok content ->
  has_attributes message = true ->
  recipient content = Some to ->
  dispatch w message tc content (attribute_value message "type")
    (attribute_value message "service_id") (attribute_value message "template_id")
    (failed_store s) = (rd, sd) ->
  finalizer_succeeds w message content to (status_var sd) (events sd) ->
  (_process_message w config message tc s).1 = rd
  ∧ ∃ rest, events (_process_message w config message tc s).2 = events sd ++ rest
            ∧ count is_send rest = 0 ∧ count is_resolver rest = 0.
Proof.
  intros Hl Ha Hr Hd Hfin.
  rewrite (process_message_outcome w config tc message s content to Hl Ha Hr), Hd. simpl.
  destruct Hfin as [-> | Hok].
  - split; [done|]. exists []. by rewrite app_nil_r.
  - rewrite Hok. destruct (truthy _); simpl.
    + split; [done|]. eexists. split; [reflexivity|done].
    + split; [done|]. exists []. by rewrite app_nil_r.
Qed.

(** X4.  The same for a templated SMS whose template was resolved: when
    the provider accepts the resolved content the status is 'sent' and the
    message is deleted; when its REST client raises TwilioRestException the
    call raises ProcessingError(TwilioClientException(e)) and the message
    is deleted (the finalizer raising nothing in both cases). *)
Theorem templated_sms_sent_and_deleted message s content to template text :
  loads w (dict_get config "SECRET_KEY") (dict_get config "DANGEROUS_SALT") (body message)
  = Ok content ->
  has_attributes message = true ->
  attribute_value message "type" = PStr "sms" ->
  content !! "content" = None ->
  is_Some (content !! "template") ->
  content !! "to" = Some to ->
  api_get_template w (events s) (attribute_value message "service_id")
    (attribute_value message "template_id") = Ok template ->
  template !! "content" = Some text ->
  let resolve := {| ev_call := GetTemplate (attribute_value message "service_id")
                                 (attribute_value message "template_id");
                    ev_raised := None |} in
  let answer := messages_create w (events s ++ [resolve]) text to (Twilio.from_number tc) in
  let sent := {| ev_call := MessagesCreate text to (Twilio.from_number tc);
                 ev_raised := raised_of answer |} in
  (∀ sid, answer = Ok sid ->
     status_var (_process_message w config message tc s).2 = PStr "sent"
     ∧ (finalizer_succeeds w message content to (PStr "sent") (events s ++ [resolve; sent]) ->
        (_process_message w config message tc s).1 = Ok tt
        ∧ deletes w config tc message s))
  ∧ (∀ e, answer = Raise e -> isinstance e TwilioRestException = true ->
       finalizer_succeeds w message content to (PStr "failed") (events s ++ [resolve; sent]) ->
       (_process_message w config message tc s).1
       = Raise (ExnOf ProcessingError (ExnOf TwilioClientException e))
       ∧ deletes w config tc message s).
Proof.
  intros Hl Ha Hty Hc [t Ht] Hto Hres Htext resolve answer sent.
  assert (recipient content = Some to) as Hr by (unfold recipient; by rewrite Hto).
  assert (dispatch w message tc content (attribute_value message "type")
            (attribute_value message "service_id") (attribute_value message "template_id")
            (failed_store s)
          = match answer with
            | Ok _ => (Ok tt, {| events := events s ++ [resolve; sent];
                                 status_var := PStr "sent" |})
            | Raise e =>
                (Raise (if isinstance e TwilioRestException
                        then ExnOf ProcessingError (ExnOf TwilioClientException e)
                        else if isinstance e TwilioClientException then ExnOf ProcessingError e
                        else e),
                 {| events := events s ++ [resolve; sent]; status_var := PStr "failed" |})
            end) as Hd.
  { subst sent answer resolve. rewrite Hty. run. rewrite Hc, Ht. simpl. rewrite Hres. simpl.
    rewrite Htext, Hto. simpl.
    destruct (messages_create _ _ _ _ _); simpl; rewrite <- ?app_assoc; simpl; [done|].
    by cases. }
  split.
  - intros sid Hans. rewrite Hans in Hd.
    split.
    + rewrite (process_message_outcome w config tc message s content to Hl Ha Hr), Hd.
      by destruct (truthy _).
    + intros Hfin.
      destruct (finalizer_outcome message s content to _ _ Hl Ha Hr Hd Hfin) as (Hok & _).
      split; [done|]. apply ok_deletes. by rewrite Hok.
  - intros e Hans Hcls Hfin. rewrite Hans, Hcls in Hd.
    destruct (finalizer_outcome message s content to _ _ Hl Ha Hr Hd Hfin) as (Hok & _).
    split; [done|]. apply ok_deletes. by rewrite Hok.
Qed.

(** X6.  When the resolver fails for a templated SMS nothing is sent and
    (the finalizer raising nothing) [_process_message] raises the
    resolver's error as classified: for a 503 an ExternalConnectionError,
    so the message is kept and the loop over the batch goes on; for
    another HTTPError a ProcessingError, so the message is deleted. *)
Theorem resolver_failure_classified message s content to e0 :
  loads w (dict_get config "SECRET_KEY") (dict_get config "DANGEROUS_SALT") (body message)
  = Ok content ->
  has_attributes message = true ->
  recipient content = Some to ->
  attribute_value message "type" = PStr "sms" ->
  content !! "content" = None ->
  is_Some (content !! "template") ->
  api_get_template w (events s) (attribute_value message "service_id")
    (attribute_value message "template_id") = Raise e0 ->
  let resolve := {| ev_call := GetTemplate (attribute_value message "service_id")
                                 (attribute_value message "template_id");
                    ev_raised := Some e0 |} in
  finalizer_succeeds w message content to (PStr "failed") (events s ++ [resolve]) ->
  (_process_message w config message tc s).1 = Raise (api_error e0)
  ∧ count is_send (events (_process_message w config message tc s).2) = count is_send (events s)
  ∧ (isinstance e0 HTTP503Error = true ->
     retains w config tc message s ∧ (handle_message w config tc message s).1 = Ok tt)
  ∧ (isinstance e0 HTTP503Error = false -> isinstance e0 HTTPError = true ->
     deletes w config tc message s).
Proof.
  intros Hl Ha Hr Hty Hc [t Ht] Hans resolve Hfin.
  assert (dispatch w message tc content (attribute_value message "type")
            (attribute_value message "service_id") (attribute_value message "template_id")
            (failed_store s)
          = (Raise (api_error e0),
             {| events := events s ++ [resolve]; status_var := PStr "failed" |})) as Hd.
  { rewrite Hty. run. rewrite Hc, Ht. simpl. rewrite Hans. simpl. unfold api_error. by cases. }
  destruct (finalizer_outcome message s content to _ _ Hl Ha Hr Hd Hfin)
    as (Hres & rest & Hev & Hsend & _).
  split; [done|]. split.
  { rewrite Hev. simpl. rewrite !count_app, Hsend. simpl. lia. }
  split.
  - intros H503.
    assert (handle_message w config tc message s
            = (Ok tt, (_process_message w config message tc s).2)) as Hh.
    { rewrite handle_message_verdict, Hres. unfold api_error. rewrite H503. done. }
    split; [unfold retains|]; by rewrite Hh.
  - intros H503 Hhttp. apply ok_deletes. rewrite Hres. unfold api_error.
    rewrite H503, Hhttp. done.
Qed.

(** X7.  A decoded message whose type is neither 'email' nor 'sms' (a
    type without StringValue included) makes no send and no resolver
    call; the finalizer raising nothing, [_process_message] raises a
    ProcessingError that names the type and the notification id, and the
    message is deleted. *)
Theorem unknown_type_rejected message s content to :
  loads w (dict_get config "SECRET_KEY") (dict_get config "DANGEROUS_SALT") (body message)
  = Ok content ->
  has_attributes message = true ->
  recipient content = Some to ->
  attribute_value message "type" ≠ PStr "email" ->
  attribute_value message "type" ≠ PStr "sms" ->
  finalizer_succeeds w message content to (PStr "failed") (events s) ->
  (_process_message w config message tc s).1
  = Raise (Exn ProcessingError
             ("Invalid type " +:+ pystr (attribute_value message "type")
              +:+ " for message id " +:+ pystr (attribute_value message "notification_id")))
  ∧ count is_send (events (_process_message w config message tc s).2) = count is_send (events s)
  ∧ count is_resolver (events (_process_message w config message tc s).2)
    = count is_resolver (events s)
  ∧ deletes w config tc message s.
Proof.
  intros Hl Ha Hr Hne Hns Hfin.
  assert (dispatch w message tc content (attribute_value message "type")
            (attribute_value message "service_id") (attribute_value message "template_id")
            (failed_store s)
          = (Raise (Exn ProcessingError
                      ("Invalid type " +:+ pystr (attribute_value message "type")
                       +:+ " for message id "
                       +:+ pystr (attribute_value message "notification_id"))),
             failed_store s)) as Hd.
  { pose proof Ha as Ha'. present_attributes Ha'.
    unfold dispatch, attribute, bind, ret, raise.
    rewrite !bool_decide_eq_false_2 by done.
    unfold attribute_value.
    repeat match goal with H : _ !! _ = Some _ |- _ => rewrite H end. done. }
  destruct (finalizer_outcome message s content to _ _ Hl Ha Hr Hd Hfin)
    as (Hres & rest & Hev & Hsend & Hresolve).
  split; [done|].
  split; [rewrite Hev; simpl; rewrite count_app, Hsend; lia|].
  split; [rewrite Hev; simpl; rewrite count_app, Hresolve; lia|].
  apply ok_deletes. rewrite Hres. done.
Qed.

(** X8.  When the resolver answers with a template that has no
    'content', KeyError('content') is raised and nothing is sent; the
    finalizer raising nothing, the message is kept and the rest of the
    batch is not processed. *)
Theorem template_without_content_is_not_sent message s content to template :
  loads w (dict_get config "SECRET_KEY") (dict_get config "DANGEROUS_SALT") (body message)
  = Ok content ->
  has_attributes message = true ->
  recipient content = Some to ->
  attribute_value message "type" = PStr "sms" ->
  content !! "content" = None ->
  is_Some (content !! "template") ->
  api_get_template w (events s) (attribute_value message "service_id")
    (attribute_value message "template_id") = Ok template ->
  template !! "content" = None ->
  let resolve := {| ev_call := GetTemplate (attribute_value message "service_id")
                                 (attribute_value message "template_id");
                    ev_raised := None |} in
  finalizer_succeeds w message content to (PStr "failed") (events s ++ [resolve]) ->
  (_process_message w config message tc s).1 = Raise (Exn KeyError "content")
  ∧ count is_send (events (_process_message w config message tc s).2) = count is_send (events s)
  ∧ retains w config tc message s
  ∧ ∀ rest, for_each (message :: rest) (handle_message w config tc) s
            = (Raise (Exn KeyError "content"), (_process_message w config message tc s).2).
Proof.
  intros Hl Ha Hr Hty Hc [t Ht] Hans Hnone resolve Hfin.
  assert (dispatch w message tc content (attribute_value message "type")
            (attribute_value message "service_id") (attribute_value message "template_id")
            (failed_store s)
          = (Raise (Exn KeyError "content"),
             {| events := events s ++ [resolve]; status_var := PStr "failed" |})) as Hd.
  { rewrite Hty. run. rewrite Hc, Ht. simpl. rewrite Hans. simpl. rewrite Hnone. done. }
  destruct (finalizer_outcome message s content to _ _ Hl Ha Hr Hd Hfin)
    as (Hres & rest & Hev & Hsend & _).
  split; [done|]. split.
  { rewrite Hev. simpl. rewrite !count_app, Hsend. simpl. lia. }
  by apply unhandled_outcome.
Qed.

Lemma message_calls_silent (l : list Event) :
  forallb is_message_call l = true -> polled l = [] ∧ deleted l = [].
Proof.
  induction l as [|ev l IH]; simpl; [done|].
  intros [Hev Hl]%andb_prop. destruct (IH Hl) as [Hp Hd].
  unfold polled, deleted in *. simpl. rewrite Hp, Hd.
  unfold is_message_call, is_send, is_resolver, is_reporter, polled_queue, deleted_message in *.
  destruct (ev_call ev); simpl in *; done.
Qed.

Lemma handle_message_calls message s :
  ∃ new, events (handle_message w config tc message s).2 = events s ++ new
         ∧ polled new = []
         ∧ (deleted new = [] ∨ deleted new = [message]).
Proof.
  rewrite handle_message_verdict.
  destruct (process_message_budget message s) as (new & Hnew & Hall & _).
  destruct (message_calls_silent new Hall) as [Hp Hd].
  destruct (verdict _) as [[]|]; simpl.
  - eexists. rewrite Hnew, <- app_assoc. split; [reflexivity|].
    unfold polled, deleted in *. rewrite !omap_app, Hp, Hd. simpl. auto.
  - exists new. auto.
  - exists new. auto.
Qed.

(** The loop over a batch polls no queue. *)
Lemma batch_never_polls messages s :
  ∃ new, events (for_each messages (handle_message w config tc) s).2 = events s ++ new
         ∧ polled new = [].
Proof.
  revert s. induction messages as [|m messages IH]; intros s; simpl.
  - exists []. rewrite app_nil_r. done.
  - unfold bind. destruct (handle_message_calls m s) as (new & Hnew & Hp & _).
    destruct (handle_message w config tc m s) as [[[]|e] s1]; simpl in *.
    + destruct (IH s1) as (new' & Hnew' & Hp').
      exists (new ++ new'). rewrite Hnew', Hnew, <- app_assoc. split; [done|].
      unfold polled in *. by rewrite omap_app, Hp, Hp'.
    + by exists new.
Qed.

(** X13.  Whatever happens in a batch, the loop over it polls no queue
    and the messages it deletes are, in order, a sublist of the messages
    of the batch: it never deletes a message it was not given, nor one
    message more often than it occurs. *)
Theorem batch_deletes_only_received messages s :
  ∃ new, events (for_each messages (handle_message w config tc) s).2 = events s ++ new
         ∧ polled new = []
         ∧ deleted new `sublist_of` messages.
Proof.
  revert s. induction messages as [|m messages IH]; intros s; simpl.
  - exists []. rewrite app_nil_r. done.
  - unfold bind. destruct (handle_message_calls m s) as (new & Hnew & Hp & Hd).
    destruct (handle_message w config tc m s) as [[[]|e] s1]; simpl in *.
    + destruct (IH s1) as (new' & Hnew' & Hp' & Hd').
      exists (new ++ new'). rewrite Hnew', Hnew, <- app_assoc. split; [done|].
      unfold polled, deleted in *. rewrite !omap_app, Hp, Hp'. split; [done|].
      destruct Hd as [-> | ->]; simpl.
      * by apply sublist_cons.
      * by apply sublist_skip.
    + exists new. split; [done|]. split; [done|].
      destruct Hd as [-> | ->].
      * apply sublist_nil_l.
      * apply sublist_skip, sublist_nil_l.
Qed.

(** X11.  [message.delete()] is called outside the [try]: when the
    message was processed (or failed with ProcessingError) and the delete
    raises, whatever the class of the exception, it leaves the loop over
    the batch and the remaining messages are not processed. *)
Theorem delete_failure_abandons_batch message s e :
  verdict (_process_message w config message tc s).1 = Some true ->
  sqs_delete w (events (_process_message w config message tc s).2) message = Raise e ->
  (handle_message w config tc message s).1 = Raise e
  ∧ deletes w config tc message s
  ∧ ∀ rest, for_each (message :: rest) (handle_message w config tc) s
            = (Raise e, (handle_message w config tc message s).2).
Proof.
  intros Hv Hdel.
  assert ((handle_message w config tc message s).1 = Raise e) as Hh.
  { rewrite handle_message_verdict, Hv. unfold external. by rewrite Hdel. }
  split; [done|]. split; [by apply ok_deletes|].
  intros rest. by apply for_each_raises.
Qed.

(** X12.  A classified outcome does not stop the batch: when
    [_process_message] returns or raises ProcessingError and the delete
    succeeds, or raises ExternalConnectionError, the loop goes on with
    the remaining messages from the store this message left. *)
Theorem classified_outcome_continues_batch message rest s (to_delete : bool) :
  verdict (_process_message w config message tc s).1 = Some to_delete ->
  (to_delete = true ->
   sqs_delete w (events (_process_message w config message tc s).2) message = Ok tt) ->
  for_each (message :: rest) (handle_message w config tc) s
  = for_each rest (handle_message w config tc)
      (if to_delete
       then log_call (DeleteMessage message) None (_process_message w config message tc s).2
       else (_process_message w config message tc s).2).
Proof.
  intros Hv Hdel. simpl. unfold bind. rewrite handle_message_verdict, Hv.
  destruct to_delete; [|done]. unfold external. rewrite (Hdel eq_refl). done.
Qed.

(** X14.  When one of PROCESSOR_MAX_NUMBER_OF_MESSAGES,
    PROCESSOR_VISIBILITY_TIMEOUT, NOTIFICATION_ATTRIBUTES is missing from
    the configuration, the KeyError is swallowed for every queue: the loop
    over the queues returns normally and has called nothing. *)
Theorem missing_setting_skips_every_queue queues s :
  config !! "PROCESSOR_MAX_NUMBER_OF_MESSAGES" = None
  ∨ config !! "PROCESSOR_VISIBILITY_TIMEOUT" = None
  ∨ config !! "NOTIFICATION_ATTRIBUTES" = None ->
  for_each queues (process_queue w config tc) s = (Ok tt, s).
Proof.
  intros Hmiss. induction queues as [|q queues IH]; simpl; [done|].
  unfold bind.
  assert (process_queue w config tc q s = (Ok tt, s)) as ->; [|done].
  unfold process_queue, try_except_all, process_batch, bind, getitem, ret, raise.
  destruct Hmiss as [H|[H|H]]; rewrite H; cases; done.
Qed.

(** X15.  When [receive_messages] raises for a queue, nothing else is
    called for that queue and the cycle goes on with the next one. *)
Theorem receive_failure_skips_queue queue s max_number visibility_timeout attribute_names e :
  config !! "PROCESSOR_MAX_NUMBER_OF_MESSAGES" = Some max_number ->
  config !! "PROCESSOR_VISIBILITY_TIMEOUT" = Some visibility_timeout ->
  config !! "NOTIFICATION_ATTRIBUTES" = Some attribute_names ->
  sqs_receive_messages w (events s) queue max_number visibility_timeout attribute_names
  = Raise e ->
  process_queue w config tc queue s
  = (Ok tt,
     log_call (ReceiveMessages queue max_number visibility_timeout attribute_names) (Some e) s)
  ∧ ∀ later, for_each (queue :: later) (process_queue w config tc) s
             = for_each later (process_queue w config tc)
                 (log_call (ReceiveMessages queue max_number visibility_timeout attribute_names)
                    (Some e) s).
Proof.
  intros Hm Hv Ha Hrecv.
  assert (process_queue w config tc queue s
          = (Ok tt, log_call (ReceiveMessages queue max_number visibility_timeout attribute_names)
                      (Some e) s)) as Hq.
  { unfold process_queue, try_except_all, process_batch, bind, getitem, external, ret.
    rewrite Hm, Hv, Ha, Hrecv. done. }
  split; [done|]. intros later. simpl. unfold bind. by rewrite Hq.
Qed.

Lemma process_queue_polled queue s max_number visibility_timeout attribute_names :
  config !! "PROCESSOR_MAX_NUMBER_OF_MESSAGES" = Some max_number ->
  config !! "PROCESSOR_VISIBILITY_TIMEOUT" = Some visibility_timeout ->
  config !! "NOTIFICATION_ATTRIBUTES" = Some attribute_names ->
  ∃ new, events (process_queue w config tc queue s).2 = events s ++ new
         ∧ polled new = [queue].
Proof.
  intros Hm Hv Ha.
  unfold process_queue, try_except_all, process_batch, bind, getitem, external, ret, raise.
  rewrite Hm, Hv, Ha.
  destruct (sqs_receive_messages _ _ _ _ _ _) as [messages|e]; simpl.
  2:{ eexists. split; [reflexivity|done]. }
  match goal with |- context [for_each ?l ?b ?s0] =>
    destruct (batch_never_polls l s0) as (new & Hnew & Hp);
    destruct (for_each l b s0) as [[[]|e] s1] end; simpl in *;
    rewrite Hnew, <- app_assoc; eexists; (split; [reflexivity|]);
    unfold polled in *; rewrite omap_app, Hp; done.
Qed.

(** The polls of the loop over the queues. *)
Lemma queues_polled_in_order queues s
    max_number visibility_timeout attribute_names :
  config !! "PROCESSOR_MAX_NUMBER_OF_MESSAGES" = Some max_number ->
  config !! "PROCESSOR_VISIBILITY_TIMEOUT" = Some visibility_timeout ->
  config !! "NOTIFICATION_ATTRIBUTES" = Some attribute_names ->
  (for_each queues (process_queue w config tc) s).1 = Ok tt
  ∧ ∃ new, events (for_each queues (process_queue w config tc) s).2 = events s ++ new
           ∧ polled new = queues.
Proof.
  intros Hm Hv Ha. revert s. induction queues as [|q queues IH]; intros s; simpl.
  - split; [done|]. exists []. by rewrite app_nil_r.
  - unfold bind. pose proof (process_queue_ok w config tc q s) as Hok.
    destruct (process_queue_polled q s _ _ _ Hm Hv Ha) as (new & Hnew & Hp).
    destruct (process_queue w config tc q s) as [r s1]. simpl in *. subst r.
    destruct (IH s1) as (Hr & new' & Hnew' & Hp'). split; [done|].
    exists (new ++ new'). rewrite Hnew', Hnew, <- app_assoc. split; [done|].
    unfold polled in *. by rewrite omap_app, Hp, Hp'.
Qed.

(** X16.  With the three processor settings present, the loop over the
    queues returns normally and polls every queue of the list exactly
    once, in the order of the list, whatever fails in between. *)
Theorem every_queue_polled_once_in_order queues s
    max_number visibility_timeout attribute_names :
  config !! "PROCESSOR_MAX_NUMBER_OF_MESSAGES" = Some max_number ->
  config !! "PROCESSOR_VISIBILITY_TIMEOUT" = Some visibility_timeout ->
  config !! "NOTIFICATION_ATTRIBUTES" = Some attribute_names ->
  (for_each queues (process_queue w config tc) s).1 = Ok tt
  ∧ ∃ new, events (for_each queues (process_queue w config tc) s).2 = events s ++ new
           ∧ polled new = queues.
Proof. apply queues_polled_in_order. Qed.
End Coverage.

Section Cycle.
Context (w : World) (config : gmap string pyval).

Lemma set_up_logger_pure s :
  (_set_up_logger config s).2 = s.
Proof.
  unfold _set_up_logger, bind, getitem, ret, raise. cases; done.
Qed.

(** X17.  When the set-up succeeds and [list_queues] answers with
    'QueueUrls', [process_all_queues] returns normally; its first call is
    the listing with the given prefix, and the queues polled after it are
    exactly the listed ones, in order. *)
Theorem cycle_polls_the_listed_queues queue_name_prefix s urls
    region host user secret max_number visibility_timeout attribute_names :
  (_set_up_logger config s).1 = Ok tt ->
  config !! "AWS_REGION" = Some region ->
  config !! "API_HOST_NAME" = Some host ->
  config !! "DELIVERY_CLIENT_USER_NAME" = Some user ->
  config !! "DELIVERY_CLIENT_SECRET" = Some secret ->
  sqs_list_queues w (events s) queue_name_prefix = Ok (Some urls) ->
  config !! "PROCESSOR_MAX_NUMBER_OF_MESSAGES" = Some max_number ->
  config !! "PROCESSOR_VISIBILITY_TIMEOUT" = Some visibility_timeout ->
  config !! "NOTIFICATION_ATTRIBUTES" = Some attribute_names ->
  (process_all_queues w config queue_name_prefix s).1 = Ok tt
  ∧ ∃ new, events (process_all_queues w config queue_name_prefix s).2
           = events s ++ {| ev_call := ListQueues queue_name_prefix; ev_raised := None |} :: new
           ∧ polled new = urls.
Proof.
  intros Hlog Hregion Hhost Huser Hsecret Hlist Hm Hv Ha.
  pose proof (set_up_logger_pure s) as Hpure.
  unfold process_all_queues, _get_all_queues, bind, getitem, external, ret.
  destruct (_set_up_logger config s) as [r s0]. simpl in *. subst r s0.
  rewrite Hregion, Hhost, Huser, Hsecret, Hlist. simpl.
  destruct (queues_polled_in_order w config (Twilio.init config) urls
              (log_call (ListQueues queue_name_prefix) None s) _ _ _ Hm Hv Ha)
    as (Hok & new & Hnew & Hp).
  split; [done|]. exists new. rewrite Hnew. simpl. rewrite <- app_assoc. done.
Qed.

(** X18.  When the answer of [list_queues] has no 'QueueUrls' (no queue
    matches the prefix), [process_all_queues] raises KeyError('QueueUrls')
    after that one call, and [process_notification_job] swallows it. *)
Theorem no_queue_urls_is_a_key_error s prefix region host user secret :
  (_set_up_logger config s).1 = Ok tt ->
  config !! "NOTIFICATION_QUEUE_PREFIX" = Some prefix ->
  config !! "AWS_REGION" = Some region ->
  config !! "API_HOST_NAME" = Some host ->
  config !! "DELIVERY_CLIENT_USER_NAME" = Some user ->
  config !! "DELIVERY_CLIENT_SECRET" = Some secret ->
  sqs_list_queues w (events s) prefix = Ok None ->
  process_all_queues w config prefix s
  = (Raise (Exn KeyError "QueueUrls"), log_call (ListQueues prefix) None s)
  ∧ process_notification_job w config s = (Ok tt, log_call (ListQueues prefix) None s).
Proof.
  intros Hlog Hprefix Hregion Hhost Huser Hsecret Hlist.
  pose proof (set_up_logger_pure s) as Hpure.
  assert (process_all_queues w config prefix s
          = (Raise (Exn KeyError "QueueUrls"), log_call (ListQueues prefix) None s)) as Hp.
  { unfold process_all_queues, _get_all_queues, bind, getitem, external, ret, raise.
    destruct (_set_up_logger config s) as [r s0]. simpl in *. subst r s0.
    rewrite Hregion, Hhost, Huser, Hsecret, Hlist. done. }
  split; [done|].
  unfold process_notification_job, try_except_all, bind, getitem, ret.
  rewrite Hprefix, Hp. done.
Qed.

(** X19.  [process_all_queues] can raise only before it polls: when it
    raises, the log is unchanged or has grown by the listing of the queues
    alone. *)
Theorem cycle_raises_only_before_polling queue_name_prefix s e :
  (process_all_queues w config queue_name_prefix s).1 = Raise e ->
  events (process_all_queues w config queue_name_prefix s).2 = events s
  ∨ ∃ raised,
      events (process_all_queues w config queue_name_prefix s).2
      = events s ++ [{| ev_call := ListQueues queue_name_prefix; ev_raised := raised |}].
Proof.
  pose proof (set_up_logger_pure s) as Hpure.
  unfold process_all_queues, _get_all_queues, bind, getitem, external, ret, raise.
  destruct (_set_up_logger config s) as [[[]|e0] s0]; simpl in *; subst s0; [|auto].
  destruct (config !! "AWS_REGION"); [|auto].
  destruct (config !! "API_HOST_NAME"); [|auto].
  destruct (config !! "DELIVERY_CLIENT_USER_NAME"); [|auto].
  destruct (config !! "DELIVERY_CLIENT_SECRET"); [|auto].
  destruct (sqs_list_queues w (events s) queue_name_prefix) as [[urls|]|e1]; simpl; eauto.
  intros He.
  match type of He with (for_each ?l ?b ?s0).1 = _ =>
    assert ((for_each l b s0).1 = Ok tt) as Hok end.
  { clear He. generalize (log_call (ListQueues queue_name_prefix) None s).
    induction urls as [|q urls IH]; intros s0; simpl; [done|].
    unfold bind. pose proof (process_queue_ok w config (Twilio.init config) q s0) as Hq.
    destruct (process_queue w config (Twilio.init config) q s0) as [r s1].
    simpl in Hq. subst r. apply IH. }
  rewrite Hok in He. done.
Qed.
End Cycle.

(** X1.  Neither [send_sms] nor [status] lets a TwilioRestException
    out. *)
Theorem twilio_client_hides_rest_exception w self notification content message_id s e :
  (Twilio.send_sms w self notification content s).1 = Raise e
  ∨ (Twilio.status w self message_id s).1 = Raise e ->
  isinstance e TwilioRestException = false.
Proof.
  intros [H|H]; revert H; run; cases; intros; simplify_eq/=; done.
Qed.

(** X2.  A client built from the configuration submits an SMS with one
    call of the provider, to notification['to'] and from
    config.get('TWILIO_NUMBER') ([None] when the setting is missing), and
    returns the provider's sid; a TwilioRestException comes back wrapped
    in TwilioClientException, any other exception as it is.  Without 'to'
    it raises KeyError('to') and calls nothing. *)
Theorem send_sms_submits_once w config notification content s :
  let self := Twilio.init config in
  match notification !! "to" with
  | Some to =>
      let answer := messages_create w (events s) content to (dict_get config "TWILIO_NUMBER") in
      events (Twilio.send_sms w self notification content s).2
      = events s ++ [{| ev_call := MessagesCreate content to (dict_get config "TWILIO_NUMBER");
                        ev_raised := raised_of answer |}]
      ∧ match answer with
        | Ok sid => (Twilio.send_sms w self notification content s).1 = Ok sid
        | Raise e =>
            (Twilio.send_sms w self notification content s).1
            = Raise (if isinstance e TwilioRestException
                     then ExnOf TwilioClientException e else e)
        end
  | None =>
      Twilio.send_sms w self notification content s = (Raise (Exn KeyError "to"), s)
  end.
Proof.
  run. destruct (notification !! "to") as [to|]; simpl; [|done].
  destruct (messages_create _ _ _ _ _); simpl; [done|]. by cases.
Qed.

(** * The theorems at concrete messages *)

Import Examples.

(** An inline SMS without a job: sent, deleted, nothing reported. *)
Example inline_sms_sent_and_deleted :
  handle_message (world (always (Ok sms_inline)) (Ok template) (Ok tt) nothing)
    config twilio_client sms_message start
  = (Ok tt,
     {| events := [{| ev_call := MessagesCreate (PStr "Hi") recipient_number (PStr "+440000");
                      ev_raised := None |};
                   {| ev_call := DeleteMessage sms_message; ev_raised := None |}];
        status_var := PStr "sent" |}).
Proof. vm_compute. reflexivity. Qed.

(** A templated SMS of the job "J1" while the resolver is down: the
    status 'failed' is reported and the message is kept. *)
Example template_unavailable_reported_and_kept :
  handle_message
    (world (always (Ok (<["job" := PStr "J1"]> sms_template))) (Raise unavailable) (Ok tt)
       nothing)
    config twilio_client sms_message start
  = (Ok tt,
     {| events := [{| ev_call := GetTemplate (PStr "S1") (PStr "T1");
                      ev_raised := Some unavailable |};
                   report recipient_number (PStr "failed") None];
        status_var := PStr "failed" |}).
Proof. vm_compute. reflexivity. Qed.

(** A type that is neither 'email' nor 'sms': ProcessingError, deleted. *)
Example unknown_type_deleted :
  (_process_message w_bare config (envelope "m1" "fax" "fine") twilio_client start).1
  = Raise (Exn ProcessingError "Invalid type fax for message id N1")
  ∧ events (handle_message w_bare config twilio_client (envelope "m1" "fax" "fine") start).2
    = [{| ev_call := DeleteMessage (envelope "m1" "fax" "fine"); ev_raised := None |}].
Proof. vm_compute. split; reflexivity. Qed.

(** An email without a subject: KeyError, nothing sent, nothing deleted. *)
Example email_without_subject_kept :
  handle_message (world (always (Ok email_no_subject)) (Ok template) (Ok tt) nothing)
    config twilio_client email_message start
  = (Raise (Exn KeyError "subject"), {| events := []; status_var := PStr "failed" |}).
Proof. vm_compute. reflexivity. Qed.

(** Two queues, the second message of the first one garbled: the first
    message is sent and deleted, the second and third are left, and the
    message of the second queue is sent and deleted. *)
Example one_queue_fails_the_next_is_processed :
  map ev_call
    (events (for_each ["A"; "B"] (process_queue w_garbled config twilio_client) start).2)
  = [ReceiveMessages "A" (PInt 10) (PInt 60) (PStr "All");
     MessagesCreate (PStr "Hi") recipient_number (PStr "+440000");
     DeleteMessage (envelope "m1" "sms" "fine");
     ReceiveMessages "B" (PInt 10) (PInt 60) (PStr "All");
     MessagesCreate (PStr "Hi") recipient_number (PStr "+440000");
     DeleteMessage (envelope "m4" "sms" "fine")].
Proof. vm_compute. reflexivity. Qed.

(** The same cycle from the top: the queues are listed first, and the
    job ends normally. *)
Example whole_cycle :
  (process_notification_job w_garbled config start).1 = Ok tt
  ∧ map ev_call (events (process_notification_job w_garbled config start).2)
    = ListQueues (PStr "notify")
      :: map ev_call
           (events (for_each ["A"; "B"] (process_queue w_garbled config twilio_client) start).2).
Proof. vm_compute. split; reflexivity. Qed.

(** The status of a delivery the provider reports as 'queued' is [None]. *)
Example status_of_queued_delivery :
  (Twilio.status
     {| loads := loads w_bare; ses_send_email := ses_send_email w_bare;
        messages_create := messages_create w_bare;
        messages_get := fun _ _ => Ok (PStr "queued");
        api_get_template := api_get_template w_bare;
        api_create_notification := api_create_notification w_bare;
        sqs_list_queues := sqs_list_queues w_bare;
        sqs_receive_messages := sqs_receive_messages w_bare;
        sqs_delete := sqs_delete w_bare |}
     twilio_client (PStr "SM1") start).1 = Ok PNone.
Proof. vm_compute. reflexivity. Qed.

(** C1, as stated, fails: the payload has a 'job' field, the empty
    string, and the reporter is not called. *)
Lemma job_present_but_empty_not_reported :
  loads w_inline_empty_job (dict_get config "SECRET_KEY") (dict_get config "DANGEROUS_SALT")
    (body sms_message) = Ok sms_inline_empty_job
  ∧ dict_in "job" sms_inline_empty_job = true
  ∧ _process_message w_inline_empty_job config sms_message twilio_client start
    = (Ok tt, {| events := [{| ev_call := MessagesCreate (PStr "Hi") recipient_number
                                             (PStr "+440000");
                               ev_raised := None |}];
                 status_var := PStr "sent" |})
  ∧ count is_reporter
      (events (_process_message w_inline_empty_job config sms_message twilio_client start).2) = 0.
Proof. vm_compute. repeat split. Qed.

Lemma reporter_called_once_witness :
  count is_reporter (events (_process_message w_inline_job config sms_message twilio_client start).2)
  = count is_reporter (events start) + (if truthy (job_of sms_inline_job) then 1 else 0).
Proof.
  apply (reporter_called_once_iff_job_truthy w_inline_job config twilio_client sms_message start
           sms_inline_job recipient_number); vm_compute; reflexivity.
Defined.

(** C2, as stated, fails: the body of the message does not pass the
    signature check, and after the driver has processed the queue the
    message has not been deleted; the exception is no ProcessingError. *)
Lemma garbled_message_not_deleted :
  loads w_garbled (dict_get config "SECRET_KEY") (dict_get config "DANGEROUS_SALT")
    (body garbled_message) = Raise bad_signature
  ∧ handle_message w_garbled config twilio_client garbled_message start
    = (Raise bad_signature, start)
  ∧ isinstance bad_signature ProcessingError = false
  ∧ count is_delete
      (events (for_each [garbled_message] (handle_message w_garbled config twilio_client)
                 start).2) = 0.
Proof. vm_compute. repeat split. Qed.

Lemma undecodable_message_witness :
  (_process_message w_garbled config garbled_message twilio_client start).1 = Raise bad_signature
  ∧ retains w_garbled config twilio_client garbled_message start.
Proof.
  destruct (undecodable_message_is_retained w_garbled config twilio_client garbled_message start
              bad_signature) as (H1 & _ & _ & H2 & _).
  - apply undecryptable; vm_compute; reflexivity.
  - split; [exact H1 | exact H2].
Defined.

(** C3, as stated, fails: the resolver answers with an InvalidResponse,
    [_process_message] raises InvalidResponse, and the driver does not
    delete the message: the exception leaves the loop. *)
Lemma invalid_response_not_deleted :
  (_process_message w_malformed_template config sms_message twilio_client start).1
  = Raise (ExnOf InvalidResponse malformed)
  ∧ handle_message w_malformed_template config twilio_client sms_message start
    = (Raise (ExnOf InvalidResponse malformed),
       {| events := [{| ev_call := GetTemplate (PStr "S1") (PStr "T1");
                        ev_raised := Some malformed |}];
          status_var := PStr "failed" |})
  ∧ count is_delete
      (events (handle_message w_malformed_template config twilio_client sms_message start).2) = 0.
Proof. vm_compute. repeat split. Qed.

Lemma deleted_iff_processing_error_witness :
  (handle_message w_malformed_template config twilio_client sms_message start).1
  = Raise (ExnOf InvalidResponse malformed)
  ∧ retains w_malformed_template config twilio_client sms_message start.
Proof.
  destruct (deleted_iff_processing_error w_malformed_template config twilio_client sms_message
              start (ExnOf InvalidResponse malformed)) as (_ & _ & _ & H).
  - vm_compute; reflexivity.
  - apply H. reflexivity.
Defined.

(** C4, as stated, fails in two ways: an SMS payload with neither
    'content' nor 'template' does not reach the resolver; and an SMS
    payload with a 'template' whose recipient is under 'to_address' is
    resolved, but the resolved content is not sent. *)
Lemma templated_sms_not_resolved_or_not_sent :
  (attribute_value sms_message "type" = PStr "sms"
   ∧ dict_in "content" sms_bare = false
   ∧ _process_message w_bare config sms_message twilio_client start
     = (Ok tt, {| events := []; status_var := PStr "failed" |})
   ∧ count is_resolver
       (events (_process_message w_bare config sms_message twilio_client start).2) = 0)
  ∧ (dict_in "content" sms_template_to_address = false
     ∧ recipient sms_template_to_address = Some recipient_number
     ∧ api_get_template w_template_to_address [] (PStr "S1") (PStr "T1") = Ok template
     ∧ _process_message w_template_to_address config sms_message twilio_client start
       = (Raise (Exn KeyError "to"),
          {| events := [{| ev_call := GetTemplate (PStr "S1") (PStr "T1");
                           ev_raised := None |}];
             status_var := PStr "failed" |})
     ∧ count is_send
         (events (_process_message w_template_to_address config sms_message twilio_client
                    start).2) = 0).
Proof. vm_compute. repeat split. Qed.

Lemma template_resolved_then_sent_witness :
  ∃ rest',
    events (_process_message w_template config sms_message twilio_client start).2
    = {| ev_call := GetTemplate (PStr "S1") (PStr "T1"); ev_raised := None |}
      :: {| ev_call := MessagesCreate (PStr "Hello") recipient_number (PStr "+440000");
            ev_raised := None |} :: rest'.
Proof.
  destruct (template_resolved_then_sent w_template config twilio_client sms_message start
              sms_template recipient_number) as (rest & H & Hsent & _).
  - vm_compute; reflexivity.
  - vm_compute; reflexivity.
  - vm_compute; reflexivity.
  - vm_compute; reflexivity.
  - vm_compute; reflexivity.
  - exists (PStr "T1"). vm_compute; reflexivity.
  - destruct (Hsent template (PStr "Hello") recipient_number) as [rest' Hrest].
    + reflexivity.
    + vm_compute; reflexivity.
    + vm_compute; reflexivity.
    + exists rest'. rewrite H, Hrest. reflexivity.
Defined.

Lemma reporter_failure_supersedes_witness :
  (_process_message w_bare_job_down config sms_message twilio_client start).1
  = Raise (ExnOf ExternalConnectionError unavailable)
  ∧ retains w_bare_job_down config twilio_client sms_message start.
Proof.
  destruct (reporter_failure_supersedes w_bare_job_down config twilio_client sms_message start
              [report recipient_number (PStr "failed") (Some unavailable)] 0
              (report recipient_number (PStr "failed") (Some unavailable)) unavailable)
    as (H1 & _ & H2 & _).
  - vm_compute; reflexivity.
  - reflexivity.
  - reflexivity.
  - reflexivity.
  - split; [exact H1 | apply H2; reflexivity].
Defined.

Lemma unclassified_failure_witness :
  process_queue w_garbled config twilio_client "A" start
  = (Ok tt, (_process_message w_garbled config garbled_message twilio_client
               (handle_message w_garbled config twilio_client (envelope "m1" "sms" "fine")
                  {| events := [poll "A"]; status_var := PNone |}).2).2)
  ∧ (for_each ["B"] (process_queue w_garbled config twilio_client)
       (_process_message w_garbled config garbled_message twilio_client
          (handle_message w_garbled config twilio_client (envelope "m1" "sms" "fine")
             {| events := [poll "A"]; status_var := PNone |}).2).2).1 = Ok tt.
Proof.
  destruct (unclassified_failure_abandons_batch_only w_garbled config twilio_client
              "A" ["B"] start (PInt 10) (PInt 60) (PStr "All")
              [envelope "m1" "sms" "fine"] garbled_message [envelope "m3" "sms" "fine"]
              bad_signature
              (handle_message w_garbled config twilio_client (envelope "m1" "sms" "fine")
                 {| events := [poll "A"]; status_var := PNone |}).2)
    as (_ & H1 & _ & H2 & _).
  - vm_compute; reflexivity.
  - vm_compute; reflexivity.
  - vm_compute; reflexivity.
  - vm_compute; reflexivity.
  - vm_compute; reflexivity.
  - vm_compute; reflexivity.
  - vm_compute; reflexivity.
  - split; [exact H1 | exact H2].
Defined.

(** C7, as stated, fails in two ways: with the job "J1" and the
    reporter down the message is not deleted; with an empty job the
    reporter is not called. *)
Lemma bare_sms_retained_or_not_reported :
  (attribute_value sms_message "type" = PStr "sms"
   ∧ dict_in "content" sms_bare_job = false ∧ dict_in "template" sms_bare_job = false
   ∧ dict_in "job" sms_bare_job = true
   ∧ handle_message w_bare_job_down config twilio_client sms_message start
     = (Ok tt, {| events := [report recipient_number (PStr "failed") (Some unavailable)];
                  status_var := PStr "failed" |})
   ∧ count is_delete
       (events (handle_message w_bare_job_down config twilio_client sms_message start).2) = 0)
  ∧ (dict_in "job" (<["job" := PStr ""]> sms_bare) = true
     ∧ count is_reporter
         (events (_process_message
                    (world (always (Ok (<["job" := PStr ""]> sms_bare))) (Ok template) (Ok tt)
                       nothing)
                    config sms_message twilio_client start).2) = 0).
Proof. vm_compute. repeat split. Qed.

Lemma sms_without_content_or_template_witness :
  events (_process_message w_bare_job config sms_message twilio_client start).2
  = [report recipient_number (PStr "failed") None]
  ∧ deletes w_bare_job config twilio_client sms_message start.
Proof.
  destruct (sms_without_content_or_template w_bare_job config twilio_client sms_message start
              sms_bare_job recipient_number) as (_ & _ & H1 & H2).
  - vm_compute; reflexivity.
  - vm_compute; reflexivity.
  - vm_compute; reflexivity.
  - vm_compute; reflexivity.
  - vm_compute; reflexivity.
  - vm_compute; reflexivity.
  - split; [exact H1|]. apply H2. right. reflexivity.
Defined.

(** C8, as stated, fails: the email gateway's send succeeds, the
    reporter is down, and the driver does not delete the message. *)
Lemma email_sent_but_not_deleted :
  attribute_value email_message "type" = PStr "email"
  ∧ handle_message w_email_job_down config twilio_client email_message start
    = (Ok tt, {| events := [email_sent;
                            report (PStr "a@example.org") (PStr "sent") (Some unavailable)];
                 status_var := PStr "sent" |})
  ∧ count is_delete
      (events (handle_message w_email_job_down config twilio_client email_message start).2) = 0.
Proof. vm_compute. repeat split. Qed.

Lemma email_sent_and_deleted_witness :
  status_var (_process_message w_email config email_message twilio_client start).2 = PStr "sent"
  ∧ (_process_message w_email config email_message twilio_client start).1 = Ok tt
  ∧ deletes w_email config twilio_client email_message start.
Proof.
  destruct (email_sent_and_deleted w_email config twilio_client email_message start email
              (PStr "a@example.org") (PStr "b@example.org") (PStr "a@example.org")
              (PStr "Subject") (PStr "Body")) as (_ & H & _).
  - vm_compute; reflexivity.
  - vm_compute; reflexivity.
  - vm_compute; reflexivity.
  - vm_compute; reflexivity.
  - vm_compute; reflexivity.
  - vm_compute; reflexivity.
  - vm_compute; reflexivity.
  - vm_compute; reflexivity.
  - destruct (H (PStr "E1") eq_refl) as [H1 H2].
    split; [exact H1|]. apply H2. left. vm_compute; reflexivity.
Defined.

Lemma sent_but_reporter_unavailable_witness :
  (_process_message w_email_job_down config email_message twilio_client start).1
  = Raise (ExnOf ExternalConnectionError unavailable)
  ∧ retains w_email_job_down config twilio_client email_message start.
Proof.
  destruct (sent_but_reporter_unavailable w_email_job_down config twilio_client email_message
              start
              [email_sent; report (PStr "a@example.org") (PStr "sent") (Some unavailable)]
              0 email_sent
              1 (report (PStr "a@example.org") (PStr "sent") (Some unavailable)) unavailable)
    as (H1 & _ & _ & H2 & _).
  - vm_compute; reflexivity.
  - reflexivity.
  - reflexivity.
  - reflexivity.
  - reflexivity.
  - reflexivity.
  - reflexivity.
  - reflexivity.
  - split; [exact H1 | exact H2].
Defined.


(** ** More of the code, at concrete messages *)

Lemma twilio_client_hides_rest_exception_witness :
  isinstance (ExnOf TwilioClientException rejected) TwilioRestException = false.
Proof.
  apply (twilio_client_hides_rest_exception w_inline_rejected twilio_client sms_inline
           (PStr "Hi") (PStr "SM1") start).
  left. vm_compute. reflexivity.
Defined.

Lemma inline_sms_sent_without_resolver_witness :
  status_var (_process_message w_inline_and_template config sms_message twilio_client start).2
  = PStr "sent"
  ∧ count is_resolver
      (events (_process_message w_inline_and_template config sms_message twilio_client start).2)
    = 0
  ∧ deletes w_inline_and_template config twilio_client sms_message start.
Proof.
  destruct (inline_sms_sent_without_resolver w_inline_and_template config twilio_client
              sms_message start sms_inline_and_template recipient_number (PStr "Hi"))
    as ((rest & Hev & _ & Hres) & H & _).
  - vm_compute; reflexivity.
  - vm_compute; reflexivity.
  - vm_compute; reflexivity.
  - vm_compute; reflexivity.
  - vm_compute; reflexivity.
  - destruct (H (PStr "SM1") eq_refl) as [H1 H2].
    split; [exact H1|]. split.
    + rewrite Hev. simpl. exact Hres.
    + apply H2. left. vm_compute; reflexivity.
Defined.

Lemma templated_sms_sent_and_deleted_witness :
  status_var (_process_message w_template config sms_message twilio_client start).2 = PStr "sent"
  ∧ deletes w_template config twilio_client sms_message start.
Proof.
  destruct (templated_sms_sent_and_deleted w_template config twilio_client sms_message start
              sms_template recipient_number template (PStr "Hello")) as (H & _).
  - vm_compute; reflexivity.
  - vm_compute; reflexivity.
  - vm_compute; reflexivity.
  - vm_compute; reflexivity.
  - exists (PStr "T1"). vm_compute; reflexivity.
  - vm_compute; reflexivity.
  - vm_compute; reflexivity.
  - vm_compute; reflexivity.
  - destruct (H (PStr "SM1") eq_refl) as [H1 H2].
    split; [exact H1|]. apply H2. left. vm_compute; reflexivity.
Defined.

Lemma sms_without_to_key_witness :
  (_process_message w_to_address config sms_message twilio_client start).1
  = Raise (Exn KeyError "to")
  ∧ retains w_to_address config twilio_client sms_message start.
Proof.
  destruct (sms_without_to_key_is_not_sent w_to_address config twilio_client sms_message start
              sms_to_address recipient_number (PStr "Hi")) as (H1 & _ & H2 & _).
  - vm_compute; reflexivity.
  - vm_compute; reflexivity.
  - vm_compute; reflexivity.
  - vm_compute; reflexivity.
  - vm_compute; reflexivity.
  - vm_compute; reflexivity.
  - left. vm_compute; reflexivity.
  - split; [exact H1 | exact H2].
Defined.

Lemma resolver_failure_classified_witness :
  (_process_message w_template_down config sms_message twilio_client start).1
  = Raise (ExnOf ExternalConnectionError unavailable)
  ∧ retains w_template_down config twilio_client sms_message start.
Proof.
  destruct (resolver_failure_classified w_template_down config twilio_client sms_message start
              sms_template recipient_number unavailable) as (H1 & _ & H2 & _).
  - vm_compute; reflexivity.
  - vm_compute; reflexivity.
  - vm_compute; reflexivity.
  - vm_compute; reflexivity.
  - vm_compute; reflexivity.
  - exists (PStr "T1"). vm_compute; reflexivity.
  - vm_compute; reflexivity.
  - left. vm_compute; reflexivity.
  - split; [exact H1|]. apply H2. reflexivity.
Defined.

Lemma unknown_type_rejected_witness :
  (_process_message w_bare config (envelope "m1" "fax" "fine") twilio_client start).1
  = Raise (Exn ProcessingError "Invalid type fax for message id N1")
  ∧ deletes w_bare config twilio_client (envelope "m1" "fax" "fine") start.
Proof.
  destruct (unknown_type_rejected w_bare config twilio_client (envelope "m1" "fax" "fine") start
              sms_bare recipient_number) as (H1 & _ & _ & H2).
  - vm_compute; reflexivity.
  - vm_compute; reflexivity.
  - vm_compute; reflexivity.
  - vm_compute. discriminate.
  - vm_compute. discriminate.
  - left. vm_compute; reflexivity.
  - split; [exact H1 | exact H2].
Defined.

Lemma template_without_content_witness :
  (_process_message w_template_empty config sms_message twilio_client start).1
  = Raise (Exn KeyError "content")
  ∧ retains w_template_empty config twilio_client sms_message start.
Proof.
  destruct (template_without_content_is_not_sent w_template_empty config twilio_client
              sms_message start sms_template recipient_number ∅) as (H1 & _ & H2 & _).
  - vm_compute; reflexivity.
  - vm_compute; reflexivity.
  - vm_compute; reflexivity.
  - vm_compute; reflexivity.
  - vm_compute; reflexivity.
  - exists (PStr "T1"). vm_compute; reflexivity.
  - vm_compute; reflexivity.
  - vm_compute; reflexivity.
  - left. vm_compute; reflexivity.
  - split; [exact H1 | exact H2].
Defined.

Lemma reporter_record_witness :
  ∃ status,
    ev_call (report (PStr "a@example.org") (PStr "sent") (Some unavailable))
    = CreateNotification (PStr "S1") (PStr "T1") (PStr "J1") (PStr "a@example.org") status
        (PStr "N1")
    ∧ status = PStr "sent".
Proof.
  destruct (reporter_record w_email_job_down config twilio_client email_message start email_job
              (PStr "a@example.org")
              [email_sent; report (PStr "a@example.org") (PStr "sent") (Some unavailable)]
              1 (report (PStr "a@example.org") (PStr "sent") (Some unavailable)))
    as (status & H1 & _ & _ & H2).
  - vm_compute; reflexivity.
  - vm_compute; reflexivity.
  - vm_compute; reflexivity.
  - vm_compute; reflexivity.
  - reflexivity.
  - reflexivity.
  - exists status. split; [exact H1|].
    destruct H2 as [[H _]|[_ H]]; [exact H | discriminate H].
Defined.

Lemma delete_failure_abandons_batch_witness :
  (handle_message w_delete_fails config twilio_client sms_message start).1 = Raise throttled
  ∧ for_each [sms_message; sms_message] (handle_message w_delete_fails config twilio_client) start
    = (Raise throttled, (handle_message w_delete_fails config twilio_client sms_message start).2).
Proof.
  destruct (delete_failure_abandons_batch w_delete_fails config twilio_client sms_message start
              throttled) as (H1 & _ & H2).
  - vm_compute; reflexivity.
  - vm_compute; reflexivity.
  - split; [exact H1 | exact (H2 [sms_message])].
Defined.

Lemma classified_outcome_continues_batch_witness :
  for_each [sms_message; sms_message] (handle_message w_bare_job_down config twilio_client) start
  = for_each [sms_message] (handle_message w_bare_job_down config twilio_client)
      (_process_message w_bare_job_down config sms_message twilio_client start).2.
Proof.
  apply (classified_outcome_continues_batch w_bare_job_down config twilio_client sms_message
           [sms_message] start false).
  - vm_compute; reflexivity.
  - discriminate.
Defined.

Lemma missing_setting_skips_every_queue_witness :
  for_each ["A"; "B"] (process_queue w_garbled ∅ twilio_client) start = (Ok tt, start).
Proof.
  apply (missing_setting_skips_every_queue w_garbled ∅ twilio_client ["A"; "B"] start).
  left. reflexivity.
Defined.

Lemma receive_failure_skips_queue_witness :
  process_queue w_receive_fails config twilio_client "A" start
  = (Ok tt,
     log_call (ReceiveMessages "A" (PInt 10) (PInt 60) (PStr "All")) (Some throttled) start).
Proof.
  destruct (receive_failure_skips_queue w_receive_fails config twilio_client "A" start
              (PInt 10) (PInt 60) (PStr "All") throttled) as (H & _).
  - vm_compute; reflexivity.
  - vm_compute; reflexivity.
  - vm_compute; reflexivity.
  - vm_compute; reflexivity.
  - exact H.
Defined.

Lemma every_queue_polled_once_in_order_witness :
  ∃ new,
    events (for_each ["A"; "B"] (process_queue w_garbled config twilio_client) start).2
    = events start ++ new
    ∧ polled new = ["A"; "B"].
Proof.
  destruct (every_queue_polled_once_in_order w_garbled config twilio_client ["A"; "B"] start
              (PInt 10) (PInt 60) (PStr "All")) as (_ & H).
  - vm_compute; reflexivity.
  - vm_compute; reflexivity.
  - vm_compute; reflexivity.
  - exact H.
Defined.

Lemma cycle_polls_the_listed_queues_witness :
  (process_all_queues w_garbled config (PStr "notify") start).1 = Ok tt
  ∧ ∃ new,
      events (process_all_queues w_garbled config (PStr "notify") start).2
      = events start ++ {| ev_call := ListQueues (PStr "notify"); ev_raised := None |} :: new
      ∧ polled new = ["A"; "B"].
Proof.
  apply (cycle_polls_the_listed_queues w_garbled config (PStr "notify") start ["A"; "B"]
           (PStr "eu-west-1") (PStr "http://localhost:6011") (PStr "delivery")
           (PStr "delivery-secret") (PInt 10) (PInt 60) (PStr "All"));
    vm_compute; reflexivity.
Defined.

Lemma no_queue_urls_witness :
  process_notification_job w_no_queues config start
  = (Ok tt, log_call (ListQueues (PStr "notify")) None start).
Proof.
  destruct (no_queue_urls_is_a_key_error w_no_queues config start (PStr "notify")
              (PStr "eu-west-1") (PStr "http://localhost:6011") (PStr "delivery")
              (PStr "delivery-secret")) as (_ & H).
  - vm_compute; reflexivity.
  - vm_compute; reflexivity.
  - vm_compute; reflexivity.
  - vm_compute; reflexivity.
  - vm_compute; reflexivity.
  - vm_compute; reflexivity.
  - vm_compute; reflexivity.
  - exact H.
Defined.

Lemma cycle_raises_only_before_polling_witness :
  events (process_all_queues w_no_queues config (PStr "notify") start).2 = events start
  ∨ ∃ raised,
      events (process_all_queues w_no_queues config (PStr "notify") start).2
      = events start ++ [{| ev_call := ListQueues (PStr "notify"); ev_raised := raised |}].
Proof.
  apply (cycle_raises_only_before_polling w_no_queues config (PStr "notify") start
           (Exn KeyError "QueueUrls")).
  vm_compute; reflexivity.
Defined.
